(** * ocp_vscode.comms: communication with the viewer

    A shallow embedding of [src/ocp_vscode/comms.py].  Python functions are
    Rocq functions of the same name.  Module globals ([CMD_PORT],
    [INIT_DONE]), the state file and everything a call prints or does on a
    socket are threaded through an explicit [state]; a call either returns or
    raises, which is the [outcome] type.  What the operating system, the
    network and the imported libraries answer is read from an environment
    record, so that every function below can be run on a concrete
    environment. *)

From Stdlib Require Import ZArith List String Ascii Bool Lia DecimalString.
From Stdlib Require DecimalPos DecimalZ.
Import ListNotations.
Local Open Scope list_scope.
Local Open Scope string_scope.

(** ** Python exceptions and the outcome of a call *)

(** Only one distinction between exception classes matters to this file:
    [except Exception] catches the instances of [Exception] and lets the other
    instances of [BaseException] (KeyboardInterrupt, SystemExit) through,
    while a bare [except:] catches both. *)
Inductive exn : Type :=
| Exception (cls msg : string)
| BaseException (cls msg : string).

Definition isinstance_Exception (e : exn) : bool :=
  match e with
  | Exception _ _ => true
  | BaseException _ _ => false
  end.

(** [str(ex)], what [print(ex)] shows. *)
Definition str_exn (e : exn) : string :=
  match e with
  | Exception _ msg => msg
  | BaseException _ msg => msg
  end.

Inductive outcome (A : Type) : Type :=
| Return (a : A)
| Raise (e : exn).
Arguments Return {A} a.
Arguments Raise {A} e.

Definition RuntimeError (msg : string) : exn := Exception "RuntimeError" msg.
Definition TypeError (msg : string) : exn := Exception "TypeError" msg.
Definition ValueError (msg : string) : exn := Exception "ValueError" msg.
Definition KeyError (msg : string) : exn := Exception "KeyError" msg.
Definition AttributeError (msg : string) : exn := Exception "AttributeError" msg.

(** ** Strings *)

Definition nl : string := String "010"%char EmptyString.

(** [str(n)] for an int. *)
Definition py_str_int (n : Z) : string := NilZero.string_of_int (Z.to_int n).

(** [sep.join(parts)]. *)
Fixpoint join (sep : string) (parts : list string) : string :=
  match parts with
  | [] => ""
  | [p] => p
  | p :: rest => p ++ sep ++ join sep rest
  end.

(** [s[n:]] on bytes. *)
Fixpoint drop_prefix (n : nat) (s : string) : string :=
  match n, s with
  | O, _ => s
  | S _, EmptyString => EmptyString
  | S n', String _ s' => drop_prefix n' s'
  end.

(** [needle in s]. *)
Definition occurs_in (needle s : string) : Prop :=
  exists before after, s = before ++ needle ++ after.

(** *** [int(s)] for a str of ASCII characters, base 10

    Surrounding whitespace is stripped, one sign is allowed, and single
    underscores may separate digits.  Any other ASCII text is a
    [ValueError]. *)

Definition is_space (c : ascii) : bool :=
  let n := nat_of_ascii c in
  ((9 <=? n)%nat && (n <=? 13)%nat) || ((28 <=? n)%nat && (n <=? 32)%nat).

Fixpoint lstrip (s : string) : string :=
  match s with
  | EmptyString => EmptyString
  | String c s' => if is_space c then lstrip s' else s
  end.

Definition rev_string (s : string) : string :=
  string_of_list_ascii (rev (list_ascii_of_string s)).

Definition strip (s : string) : string :=
  rev_string (lstrip (rev_string (lstrip s))).

Definition digit_of (c : ascii) : option Z :=
  let n := nat_of_ascii c in
  if ((48 <=? n)%nat && (n <=? 57)%nat) then Some (Z.of_nat (n - 48)) else None.

(** [after_digit] tells whether the previous character was a digit: an
    underscore is accepted only between two digits. *)
Fixpoint digits (s : string) (acc : Z) (after_digit : bool) : option Z :=
  match s with
  | EmptyString => if after_digit then Some acc else None
  | String c s' =>
      if Ascii.eqb c "_"%char
      then (if after_digit then digits s' acc false else None)
      else match digit_of c with
           | Some d => digits s' (10 * acc + d)%Z true
           | None => None
           end
  end.

Definition py_int (s : string) : outcome Z :=
  let bad :=
    Raise (ValueError ("invalid literal for int() with base 10: '" ++ s ++ "'")) in
  match strip s with
  | String "-"%char d =>
      match digits d 0%Z false with Some n => Return (- n)%Z | None => bad end
  | String "+"%char d =>
      match digits d 0%Z false with Some n => Return n | None => bad end
  | d =>
      match digits d 0%Z false with Some n => Return n | None => bad end
  end.

(** ** JSON values, as [json.loads] builds them

    [None], [bool], [int], [str], [list] and [dict] with str keys.  A dict is
    the list of its items in insertion order; its keys are distinct
    ([dict_wf]).  Numbers with a fraction or an exponent (Python floats) are
    outside this model. *)
#[warnings="-register-all"]
Inductive json : Type :=
| JNull
| JBool (b : bool)
| JInt (z : Z)
| JStr (s : string)
| JList (l : list json)
| JDict (d : list (string * json)).

Section Dict.
Variable V : Type.

Definition dict : Type := list (string * V).

(** [d.get(k)], with [None] when the key is absent. *)
Fixpoint dict_get (d : dict) (k : string) : option V :=
  match d with
  | [] => None
  | (k', v) :: d' => if String.eqb k' k then Some v else dict_get d' k
  end.

(** [k in d]. *)
Definition dict_contains (d : dict) (k : string) : bool :=
  match dict_get d k with
  | Some _ => true
  | None => false
  end.

(** [d[k] = v]: an existing key keeps its place, a new one goes last. *)
Fixpoint dict_set (d : dict) (k : string) (v : V) : dict :=
  match d with
  | [] => [(k, v)]
  | (k', v') :: d' =>
      if String.eqb k' k then (k', v) :: d' else (k', v') :: dict_set d' k v
  end.

Definition dict_keys (d : dict) : list string := map fst d.

Definition dict_wf (d : dict) : Prop := NoDup (dict_keys d).

End Dict.
Arguments dict_get {V} d k.
Arguments dict_contains {V} d k.
Arguments dict_set {V} d k v.
Arguments dict_keys {V} d.
Arguments dict_wf {V} d.

(** Python's [==] on JSON values: [True == 1], lists compare item by item,
    dicts compare as mappings (the order of the items does not count). *)
Fixpoint py_eq (a b : json) {struct a} : bool :=
  match a, b with
  | JNull, JNull => true
  | JBool x, JBool y => Bool.eqb x y
  | JBool x, JInt y => Z.eqb (Z.b2z x) y
  | JInt x, JBool y => Z.eqb x (Z.b2z y)
  | JInt x, JInt y => Z.eqb x y
  | JStr x, JStr y => String.eqb x y
  | JList xs, JList ys =>
      (fix items (xs ys : list json) {struct xs} : bool :=
         match xs, ys with
         | [], [] => true
         | x :: xs', y :: ys' => py_eq x y && items xs' ys'
         | _, _ => false
         end) xs ys
  | JDict d1, JDict d2 =>
      Nat.eqb (List.length d1) (List.length d2)
      && (fix items (d : list (string * json)) {struct d} : bool :=
            match d with
            | [] => true
            | (k, v) :: d' =>
                match dict_get d2 k with
                | Some w => py_eq v w
                | None => false
                end && items d'
            end) d1
  | _, _ => false
  end.

(** ** Message types *)

Inductive MessageType : Type :=
| DATA
| COMMAND
| UPDATES
| LISTEN
| BACKEND
| BACKEND_RESPONSE
| CONFIG.

(** The [IntEnum] value of a member. *)
Definition value (m : MessageType) : Z :=
  match m with
  | DATA => 1
  | COMMAND => 2
  | UPDATES => 3
  | LISTEN => 4
  | BACKEND => 5
  | BACKEND_RESPONSE => 6
  | CONFIG => 7
  end%Z.

(** [a == b] on members compares their values. *)
Definition MessageType_eqb (a b : MessageType) : bool := Z.eqb (value a) (value b).

(** Members with a kind tag on the wire; [UPDATES] has none. *)
Definition tagged (m : MessageType) : bool :=
  match m with
  | UPDATES => false
  | _ => true
  end.

(** ** The process state *)

(** A port as the module holds it.  [find_port] yields an [int] from a
    workspace match and the state file's str key from its fallback. *)
Inductive pyport : Type :=
| PortInt (n : Z)
| PortStr (s : string).

(** How an f-string shows a port. *)
Definition str_port (p : pyport) : string :=
  match p with
  | PortInt n => py_str_int n
  | PortStr s => s
  end.

(** Modelled from the spec: the State Store kept by the [.state] module, which
    is not among the sources.  It maps a port (a str key) to the workspace
    roots and the connection file of the viewer on that port, and is iterated
    in the order of its entries. *)
Record port_state : Type := mkPortState {
  roots : option (list string);
  connection_file : option string
}.

Definition state_store : Type := list (string * port_state).

(** What a call does that can be seen from outside. *)
Inductive event : Type :=
| EvPrint (line : string)
| EvProbe (port : Z)
| EvConnect (url : string) (max_size : option Z)
| EvSend (frame : string)
| EvRecv
| EvClose
| EvCallback (payload : json) (kind : MessageType).

Record state : Type := mkState {
  CMD_PORT : pyport;
  INIT_DONE : bool;
  state_file : state_store;
  trace : list event
}.

(** The module as imported: port 3939, not initialised. *)
Definition fresh (store : state_store) : state :=
  {| CMD_PORT := PortInt 3939; INIT_DONE := false; state_file := store; trace := [] |}.

Definition CMD_URL : string := "ws://127.0.0.1".

(** [f"{CMD_URL}:{port}"]. *)
Definition url_of (port : pyport) : string := CMD_URL ++ ":" ++ str_port port.

(** ** Calls: state passing with exceptions *)

Definition M (A : Type) : Type := state -> outcome A * state.

Definition ret {A : Type} (a : A) : M A := fun s => (Return a, s).

Definition raise {A : Type} (e : exn) : M A := fun s => (Raise e, s).

Definition bind {A B : Type} (m : M A) (k : A -> M B) : M B :=
  fun s =>
    match m s with
    | (Return a, s') => k a s'
    | (Raise e, s') => (Raise e, s')
    end.

Declare Scope py_scope.
Delimit Scope py_scope with py.
Notation "x <- m ;; k" := (bind m (fun x => k))
  (at level 100, m at next level, right associativity) : py_scope.
Notation "m ;; k" := (bind m (fun _ => k))
  (at level 100, right associativity) : py_scope.
Local Open Scope py_scope.

(** What a library call answered, taken into the running call. *)
Definition lift {A : Type} (o : outcome A) : M A := fun s => (o, s).

(** [try: body / except Exception as ex: handler(ex)]. *)
Definition try_except {A : Type} (body : M A) (handler : exn -> M A) : M A :=
  fun s =>
    match body s with
    | (Raise e, s') =>
        if isinstance_Exception e then handler e s' else (Raise e, s')
    | r => r
    end.

(** [try: body / except: handler]. *)
Definition try_except_all {A : Type} (body : M A) (handler : M A) : M A :=
  fun s =>
    match body s with
    | (Raise _, s') => handler s'
    | r => r
    end.

Definition emit (e : event) : M unit :=
  fun s =>
    (Return tt,
     {| CMD_PORT := CMD_PORT s; INIT_DONE := INIT_DONE s;
        state_file := state_file s; trace := trace s ++ [e] |}).

Definition print (line : string) : M unit := emit (EvPrint line).

Definition read_CMD_PORT : M pyport := fun s => (Return (CMD_PORT s), s).

Definition read_INIT_DONE : M bool := fun s => (Return (INIT_DONE s), s).

(** Modelled from the spec: [get_state()] of the missing [.state] module
    gives the State Store as it is now. *)
Definition get_state : M state_store := fun s => (Return (state_file s), s).

Definition remove_port (key : string) (store : state_store) : state_store :=
  filter (fun entry => negb (String.eqb (fst entry) key)) store.

Fixpoint put_connection_file (key cf : string) (store : state_store) : state_store :=
  match store with
  | [] => [(key, {| roots := None; connection_file := Some cf |})]
  | (k, st) :: rest =>
      if String.eqb k key
      then (k, {| roots := roots st; connection_file := Some cf |}) :: rest
      else (k, st) :: put_connection_file key cf rest
  end.

(** Modelled from the spec: [update_state(port, key, value)] of the missing
    [.state] module.  With no key it deletes the entry of the port (a stale
    entry is removed); with the key [connection_file] it records the path. *)
Definition update_state (port : string) (item : option string) : M unit :=
  fun s =>
    (Return tt,
     {| CMD_PORT := CMD_PORT s; INIT_DONE := INIT_DONE s;
        state_file := match item with
                      | None => remove_port port (state_file s)
                      | Some cf => put_connection_file port cf (state_file s)
                      end;
        trace := trace s |}).

(** ** What the surroundings answer *)

Record env : Type := mkEnv {
  (** [os.environ.get("OCP_PORT")] *)
  OCP_PORT : option string;
  (** [s.connect_ex(("127.0.0.1", port))]: 0 when something listens *)
  connect_ex : Z -> Z;
  (** [Path.cwd().is_relative_to(Path(root))] *)
  cwd_is_relative_to : string -> bool;
  (** whether IPython and jupyter_console could be imported *)
  JCONSOLE : bool;
  (** the connection file of [get_ipython().kernel], when there is a kernel *)
  ipython_kernel : option (outcome string);
  (** the [iopub_port] read from a connection file *)
  connection_info : string -> outcome Z;
  (** [get_config_file()] *)
  config_file : string;
  (** [connect(url)] of websockets *)
  ws_connect : string -> outcome unit;
  (** [ws.send(frame)] *)
  ws_send : string -> outcome unit;
  (** [ws.recv()] on the connection a send opened *)
  ws_recv : outcome string;
  (** [ws.close()] *)
  ws_close : outcome unit;
  (** [json.loads(text)] *)
  json_loads : string -> outcome json
}.

(** The objects handed to the senders are any Python objects.  What the
    imported libraries do with them is a record of operations. *)
Record hooks (obj : Type) : Type := mkHooks {
  is_topods_shape : obj -> bool;
  is_toploc_location : obj -> bool;
  serialize : obj -> string;
  b64encode : string -> string;
  loc_to_tq : obj -> obj;
  isinstance_Enum : obj -> bool;
  enum_value : obj -> obj;
  (** [type(obj)] as an f-string shows it *)
  type_repr : obj -> string;
  (** the Python object a JSON value stands for *)
  of_json : json -> obj;
  (** [orjson.dumps(data, default=default)] *)
  orjson_dumps : (obj -> outcome obj) -> obj -> outcome string
}.
Arguments is_topods_shape {obj} h o.
Arguments is_toploc_location {obj} h o.
Arguments serialize {obj} h o.
Arguments b64encode {obj} h s.
Arguments loc_to_tq {obj} h o.
Arguments isinstance_Enum {obj} h o.
Arguments enum_value {obj} h o.
Arguments type_repr {obj} h o.
Arguments of_json {obj} h v.
Arguments orjson_dumps {obj} h hook data.

(** ** The functions of comms.py *)

Section Comms.
Variable obj : Type.
Variable H : hooks obj.
Variable E : env.
(** The caller's callback: it returns or raises. *)
Variable callback : json -> MessageType -> outcome unit.

(** Check whether the port is listening. *)
Definition port_check (port : Z) : M bool :=
  emit (EvProbe port) ;;
  ret (Z.eqb (connect_ex E port) 0).

(** Default JSON serializer: the hook given to orjson. *)
Definition default (o : obj) : outcome obj :=
  if is_topods_shape H o
  then Return (of_json H (JStr (b64encode H (serialize H o))))
  else if is_toploc_location H o
  then Return (loc_to_tq H o)
  else if isinstance_Enum H o
  then Return (enum_value H o)
  else Raise (TypeError ("Object of type " ++ type_repr H o
                         ++ " is not JSON serializable")).

Definition set_port (port : pyport) : M unit :=
  fun s =>
    (Return tt,
     {| CMD_PORT := port; INIT_DONE := true;
        state_file := state_file s; trace := trace s |}).

(** [state.get("roots", [])] *)
Definition get_roots (st : port_state) : list string :=
  match roots st with
  | Some rs => rs
  | None => []
  end.

(** The loop over the roots of one entry: the first root the current
    directory lies under sets [port] and breaks out of this loop. *)
Fixpoint match_roots (rs : list string) (n : Z) (port : option pyport)
  : option pyport :=
  match rs with
  | [] => port
  | root :: rest =>
      if cwd_is_relative_to E root
      then Some (PortInt n)
      else match_roots rest n port
  end.

(** The loop over the entries of the State Store: a dead port is reported and
    its entry deleted, an alive one is matched against the current directory.
    [port] is the variable of that name, [None] until a root matches. *)
Fixpoint scan_states (states : state_store) (port : option pyport)
  : M (option pyport) :=
  match states with
  | [] => ret port
  | (p, st) :: rest =>
      n <- lift (py_int p) ;;
      alive <- port_check n ;;
      if negb alive
      then (print ("Found stale configuration for port " ++ p ++ ", deleting it.") ;;
            update_state (py_str_int n) None ;;
            scan_states rest port)
      else scan_states rest (match_roots (get_roots st) n port)
  end.

(** [[port for port, _ in states if port_check(int(port))]] *)
Fixpoint alive_ports (states : state_store) : M (list string) :=
  match states with
  | [] => ret []
  | (p, _) :: rest =>
      n <- lift (py_int p) ;;
      alive <- port_check n ;;
      ports <- alive_ports rest ;;
      ret (if alive then p :: ports else ports)
  end.

Definition multiple_ports_message (ports : list string) : string :=
  nl ++ "Multiple ports found (" ++ join ", " ports
     ++ ") and the file is outside of any" ++ nl
     ++ "workspace folder of this VS Code instance:" ++ nl
     ++ "The right viewer cannot be auto detected, use set_port(port) in your code.".

Definition no_port_message : string :=
  "No port found via config file" ++ nl
  ++ "To change the port, use set_port(port) in your code".

Definition find_port : M pyport :=
  states <- get_state ;;
  port <- scan_states states None ;;
  match port with
  | Some p => ret p
  | None =>
      ports <- alive_ports states ;;
      if Nat.eqb (List.length ports) 1
      then ret (PortStr (hd "" ports))
      else if Nat.ltb 1 (List.length ports)
      then raise (RuntimeError (multiple_ports_message ports))
      else raise (RuntimeError no_port_message)
  end.

(** Set the port and connection file. *)
Definition find_and_set_port : M unit :=
  port <- lift (py_int (match OCP_PORT E with Some v => v | None => "0" end)) ;;
  port <- (if (0 <? port)%Z
           then (print ("Using predefined port " ++ py_str_int port
                        ++ " taken from environment variable OCP_PORT") ;;
                 ret (PortInt port))
           else (found <- find_port ;;
                 print ("Using port " ++ str_port found
                        ++ " taken from config file") ;;
                 ret found)) ;;
  set_port port.

(** Set the connection file for Jupyter in the state file. *)
Definition set_connection_file : M unit :=
  match (if JCONSOLE E then ipython_kernel E else None) with
  | Some kernel =>
      cf <- lift kernel ;;
      iopub_port <- lift (connection_info E cf) ;;
      alive <- port_check iopub_port ;;
      if alive
      then (print "Jupyter kernel running" ;;
            port <- read_CMD_PORT ;;
            update_state (str_port port) (Some cf) ;;
            print ("Jupyter connection file path written to " ++ config_file E))
      else print "Jupyter kernel not responding"
  | None =>
      if negb (JCONSOLE E)
      then print "Jupyter console not installed"
      else print "Jupyter kernel not running"
  end.

(** Get the port. *)
Definition get_port : M pyport :=
  init <- read_INIT_DONE ;;
  (if negb init
   then (find_and_set_port ;; set_connection_file)
   else ret tt) ;;
  read_CMD_PORT.

(** The kind tag of a frame, by the chain of comparisons of [_send]. *)
Definition kind_prefix (message_type : MessageType) : string :=
  if MessageType_eqb message_type COMMAND then "C:"
  else if MessageType_eqb message_type DATA then "D:"
  else if MessageType_eqb message_type LISTEN then "L:"
  else if MessageType_eqb message_type BACKEND then "B:"
  else if MessageType_eqb message_type BACKEND_RESPONSE then "R:"
  else if MessageType_eqb message_type CONFIG then "S:"
  else "".

(** The frame of [_send]: the JSON bytes behind the kind tag. *)
Definition encode (data : obj) (message_type : MessageType) : outcome string :=
  match orjson_dumps H default data with
  | Return j => Return (kind_prefix message_type ++ j)
  | Raise e => Raise e
  end.

(** Send data to the viewer.  [timeit] only makes the [Timer] blocks report
    wall-clock time, which is left out. *)
Definition _send (data : obj) (message_type : MessageType)
  (port : option pyport) (timeit : bool) : M json :=
  port <- match port with
          | Some p => ret p
          | None =>
              init <- read_INIT_DONE ;;
              (if negb init
               then (find_and_set_port ;; set_connection_file)
               else ret tt) ;;
              read_CMD_PORT
          end ;;
  try_except
    (j <- lift (encode data message_type) ;;
     emit (EvConnect (url_of port) None) ;;
     lift (ws_connect E (url_of port)) ;;
     emit (EvSend j) ;;
     lift (ws_send E j) ;;
     result <- (if MessageType_eqb message_type COMMAND
                then try_except
                       (emit EvRecv ;;
                        reply <- lift (ws_recv E) ;;
                        lift (json_loads E reply))
                       (fun ex => print (str_exn ex) ;; ret JNull)
                else ret JNull) ;;
     try_except_all (emit EvClose ;; lift (ws_close E)) (ret tt) ;;
     ret result)
    (fun ex =>
       print ("Cannot connect to viewer on port " ++ str_port port
              ++ ", is it running and the right port provided?") ;;
       print (str_exn ex) ;;
       ret JNull).

Definition send_data (data : obj) (port : option pyport) (timeit : bool) : M json :=
  _send data DATA port timeit.

Definition send_config (config : obj) (port : option pyport) (timeit : bool) : M json :=
  _send config CONFIG port timeit.

Definition send_command (data : obj) (port : option pyport) (timeit : bool) : M json :=
  _send data COMMAND port timeit.

Definition send_backend (data : obj) (port : option pyport) (timeit : bool) : M json :=
  _send data BACKEND port timeit.

Definition send_response (data : obj) (port : option pyport) (timeit : bool) : M json :=
  _send data BACKEND_RESPONSE port timeit.

(** *** Receive data from the viewer *)

(** [v.keys()] and [v.items()]: only a dict has them. *)
Definition dict_items (v : json) : outcome (dict json) :=
  match v with
  | JDict d => Return d
  | _ => Raise (AttributeError "object has no attribute 'keys'")
  end.

(** [d[k]] *)
Definition dict_getitem (d : dict json) (k : string) : outcome json :=
  match dict_get d k with
  | Some v => Return v
  | None => Raise (KeyError ("'" ++ k ++ "'"))
  end.

(** [d.get(k)] *)
Definition dict_get_or_None (d : dict json) (k : string) : json :=
  match dict_get d k with
  | Some v => v
  | None => JNull
  end.

(** The loop that builds [new_changes]: an item whose key is in
    [last_config] with an equal value is skipped, any other is stored. *)
Fixpoint status_delta_from (last_config items new_changes : dict json) : dict json :=
  match items with
  | [] => new_changes
  | (k, v) :: rest =>
      if dict_contains last_config k
         && py_eq (dict_get_or_None last_config k) v
      then status_delta_from last_config rest new_changes
      else status_delta_from last_config rest (dict_set new_changes k v)
  end.

Definition status_delta (last_config changes : dict json) : dict json :=
  status_delta_from last_config changes [].

(** A call of the callback, as the trace records it. *)
Definition invoke (payload : json) (kind : MessageType) : M unit :=
  emit (EvCallback payload kind) ;;
  lift (callback payload kind).

(** How one turn of the [while True] loop ends: in the next turn, with the
    status snapshot to carry on, or at [break]. *)
Inductive turn : Type :=
| Continue (last_config : dict json)
| Break.

(** One turn of the loop of [_listen].  [received] is what [recv] does this
    time: it raises, or gives [None] or a frame. *)
Definition listen_turn (last_config : dict json)
  (received : outcome (option string)) : M turn :=
  try_except
    (emit EvRecv ;;
     message <- lift received ;;
     match message with
     | None => ret (Continue last_config)
     | Some text =>
         message <- lift (json_loads E text) ;;
         fields <- lift (dict_items message) ;;
         (if dict_contains fields "model"
          then (model <- lift (dict_getitem fields "model") ;;
                invoke model DATA)
          else ret tt) ;;
         if py_eq (dict_get_or_None fields "command") (JStr "status")
         then (changes <- lift (dict_getitem fields "text") ;;
               items <- lift (dict_items changes) ;;
               let new_changes := status_delta last_config items in
               invoke (JDict new_changes) UPDATES ;;
               ret (Continue items))
         else ret (Continue last_config)
     end)
    (fun ex => print (str_exn ex) ;; ret Break).

(** Where [_listen] stands after the frames given to it: blocked in [recv]
    with its status snapshot, or returned after a [break]. *)
Inductive listen_end : Type :=
| Waiting (last_config : dict json)
| Stopped.

Fixpoint listen_loop (inbound : list (outcome (option string)))
  (last_config : dict json) : M listen_end :=
  match inbound with
  | [] => ret (Waiting last_config)
  | received :: rest =>
      t <- listen_turn last_config received ;;
      match t with
      | Continue snapshot => listen_loop rest snapshot
      | Break => ret Stopped
      end
  end.

Definition max_size : Z := (2 ^ 28)%Z.

Definition register_frame : string := "L:register".

(** Leaving the [with connect(...) as websocket] block closes the
    connection, whether the block returned or raised.  While [_listen] is
    blocked in [recv] it has not left the block. *)
Definition leaving_with (block : M listen_end) : M listen_end :=
  fun s =>
    match block s with
    | (Return (Waiting snapshot), s') => (Return (Waiting snapshot), s')
    | (Return Stopped, s') =>
        (emit EvClose ;; lift (ws_close E) ;; ret Stopped) s'
    | (Raise e, s') =>
        (emit EvClose ;; lift (ws_close E) ;; raise e) s'
    end.

(** The body of [listener]'s closure, run on the frames [inbound] that
    arrive. *)
Definition _listen (inbound : list (outcome (option string))) : M listen_end :=
  let last_config := [] in
  port <- read_CMD_PORT ;;
  emit (EvConnect (url_of port) (Some max_size)) ;;
  lift (ws_connect E (url_of port)) ;;
  leaving_with
    (emit (EvSend register_frame) ;;
     lift (ws_send E register_frame) ;;
     listen_loop inbound last_config).

(** Listen for data from the viewer. *)
Definition listener : list (outcome (option string)) -> M listen_end := _listen.

End Comms.

Arguments default {obj} H o.
Arguments encode {obj} H data message_type.
Arguments _send {obj} H E data message_type port timeit.
Arguments send_data {obj} H E data port timeit.
Arguments send_config {obj} H E config port timeit.
Arguments send_command {obj} H E data port timeit.
Arguments send_backend {obj} H E data port timeit.
Arguments send_response {obj} H E data port timeit.

(** ** Derived notions used in the statements *)

(** The keys of the State Store are ports in decimal. *)
Definition keys_parse (states : state_store) : Prop :=
  Forall (fun entry => exists n, py_int (fst entry) = Return n) states.

(** The entry's port answers the probe. *)
Definition alive_key (E : env) (p : string) : bool :=
  match py_int p with
  | Return n => Z.eqb (connect_ex E n) 0
  | Raise _ => false
  end.

(** The entry is alive and the current directory lies under one of its
    workspace roots. *)
Definition workspace_match (E : env) (entry : string * port_state) : bool :=
  alive_key E (fst entry)
  && existsb (cwd_is_relative_to E) (get_roots (snd entry)).

Definition alive_keys (E : env) (states : state_store) : list string :=
  filter (alive_key E) (map fst states).

(** The first entry, in store order, that is a workspace match. *)
Definition first_match (E : env) (states : state_store) : option string :=
  option_map fst (find (workspace_match E) states).

Definition count_connects (events : list event) : nat :=
  List.length (filter (fun e => match e with EvConnect _ _ => true | _ => false end) events).

Definition sent_frames (events : list event) : list string :=
  flat_map (fun e => match e with EvSend frame => [frame] | _ => [] end) events.

Definition callbacks (events : list event) : list (json * MessageType) :=
  flat_map (fun e => match e with EvCallback p k => [(p, k)] | _ => [] end) events.

(** The default [max_size] of the websockets client, one MiB. *)
Definition websockets_default_max_size : Z := (2 ^ 20)%Z.

(** The state after a call that did nothing but the events [events]. *)
Definition after (s : state) (events : list event) : state :=
  {| CMD_PORT := CMD_PORT s; INIT_DONE := INIT_DONE s;
     state_file := state_file s; trace := trace s ++ events |}.

(** A send knows its port [p] without resolving it: the caller gave it, or
    the module is initialised and holds it. *)
Definition port_known (s : state) (port : option pyport) (p : pyport) : Prop :=
  port = Some p \/ (port = None /\ INIT_DONE s = true /\ CMD_PORT s = p).

(** The first line [_send] prints when its [try] block raised. *)
Definition cannot_connect (p : pyport) : string :=
  "Cannot connect to viewer on port " ++ str_port p
  ++ ", is it running and the right port provided?".

(** Two states hold the same port and the same initialised flag. *)
Definition same_globals (s s' : state) : Prop :=
  CMD_PORT s' = CMD_PORT s /\ INIT_DONE s' = INIT_DONE s.

(** What the loop over the State Store leaves in [port], as a function of
    the answers of the probes alone. *)
Fixpoint scan_result (E : env) (states : state_store) (port : option pyport)
  : option pyport :=
  match states with
  | [] => port
  | (p, st) :: rest =>
      match py_int p with
      | Return n =>
          if Z.eqb (connect_ex E n) 0
          then scan_result E rest (match_roots E (get_roots st) n port)
          else scan_result E rest port
      | Raise _ => port
      end
  end.

(** An item of a status message goes into the delta. *)
Definition kept (last_config : dict json) (item : string * json) : bool :=
  negb (dict_contains last_config (fst item)
        && py_eq (dict_get_or_None last_config (fst item)) (snd item)).

(** The callback events of the [model] branch for a message. *)
Definition model_calls (fields : dict json) : list event :=
  match dict_get fields "model" with
  | Some model => [EvCallback model DATA]
  | None => []
  end.

(** A call only adds events that satisfy [P] to the trace, and leaves the
    port and the initialised flag as they are. *)
Definition only_events {A : Type} (P : event -> bool) (m : M A) : Prop :=
  forall s, exists evs,
    trace (snd (m s)) = (trace s ++ evs)%list
    /\ forallb P evs = true
    /\ same_globals s (snd (m s)).

(** Events of a listener at work: it opens no connection and probes no
    port. *)
Definition listening (e : event) : bool :=
  match e with
  | EvConnect _ _ => false
  | EvProbe _ => false
  | _ => true
  end.

Ltac run :=
  cbn -[url_of str_port append app py_int py_str_int status_delta py_eq
        dict_get find_port].

Ltac settle := unfold after; run; rewrite <- ?app_assoc; reflexivity.

(** *** Notions for the further properties *)

(** A call adds events that satisfy [P] to the trace and changes nothing
    else: not the port, not the flag, not the State Store. *)
Definition adds_only {A : Type} (P : event -> bool) (m : M A) : Prop :=
  forall s, exists evs, snd (m s) = after s evs /\ forallb P evs = true.

(** Events of a send to one URL: it connects nowhere else, probes no port
    and calls no callback. *)
Definition sending_to (url : string) (e : event) : bool :=
  match e with
  | EvConnect u _ => String.eqb u url
  | EvProbe _ => false
  | EvCallback _ _ => false
  | _ => true
  end.

(** Events of port discovery: printed lines and liveness probes. *)
Definition discovering (e : event) : bool :=
  match e with
  | EvPrint _ => true
  | EvProbe _ => true
  | _ => false
  end.

(** Events of the receive loop itself: one [recv] per turn, callbacks and
    printed errors. *)
Definition in_loop (e : event) : bool :=
  match e with
  | EvRecv => true
  | EvCallback _ _ => true
  | EvPrint _ => true
  | _ => false
  end.

(** The lines a call printed. *)
Definition printed (events : list event) : list string :=
  flat_map (fun e => match e with EvPrint line => [line] | _ => [] end) events.

(** The line [find_port] prints for a port that does not answer. *)
Definition stale_line (p : string) : string :=
  "Found stale configuration for port " ++ p ++ ", deleting it.".

(** The keys of the State Store whose port does not answer. *)
Definition dead_keys (E : env) (states : state_store) : list string :=
  filter (fun p => negb (alive_key E p)) (map fst states).

(** A JSON value as a parser builds it: the keys of every dict in it are
    distinct. *)
#[warnings="-register-all"]
Inductive json_wf : json -> Prop :=
| wf_null : json_wf JNull
| wf_bool (b : bool) : json_wf (JBool b)
| wf_int (z : Z) : json_wf (JInt z)
| wf_str (s : string) : json_wf (JStr s)
| wf_list (l : list json) : Forall json_wf l -> json_wf (JList l)
| wf_dict (d : list (string * json)) :
    NoDup (map fst d) -> Forall (fun kv => json_wf (snd kv)) d -> json_wf (JDict d).

Section JsonInduction.
Variable P : json -> Prop.
Hypothesis Hnull : P JNull.
Hypothesis Hbool : forall b, P (JBool b).
Hypothesis Hint : forall z, P (JInt z).
Hypothesis Hstr : forall s, P (JStr s).
Hypothesis Hlist : forall l, Forall P l -> P (JList l).
Hypothesis Hdict : forall d, Forall (fun kv => P (snd kv)) d -> P (JDict d).

(** Induction on a JSON value with the items of a list and the values of a
    dict as induction hypotheses. *)
Fixpoint json_nested_ind (v : json) : P v :=
  match v with
  | JNull => Hnull
  | JBool b => Hbool b
  | JInt z => Hint z
  | JStr s => Hstr s
  | JList l =>
      Hlist l ((fix items (l : list json) : Forall P l :=
                  match l with
                  | [] => @Forall_nil json P
                  | x :: l' => Forall_cons x (json_nested_ind x) (items l')
                  end) l)
  | JDict d =>
      Hdict d ((fix items (d : list (string * json)) : Forall (fun kv => P (snd kv)) d :=
                  match d with
                  | [] => Forall_nil _
                  | (k, x) :: d' =>
                      Forall_cons (P := fun kv => P (snd kv)) (k, x)
                        (json_nested_ind x) (items d')
                  end) d)
  end.
End JsonInduction.


(** ** A concrete run-time, to execute the functions on *)

Module Demo.

(** Python objects: JSON values, CAD shapes and locations, enum members, and
    objects of any other class. *)
Inductive pyobj : Type :=
| Json (v : json)
| Shape (brep : string)
| Location (tq : json)
| Member (v : json)
| Object (class_name : string).

Definition quote : string := String "034"%char EmptyString.

(** Compact JSON text of a value whose strings need no escapes. *)
Fixpoint render (v : json) : string :=
  match v with
  | JNull => "null"
  | JBool true => "true"
  | JBool false => "false"
  | JInt z => py_str_int z
  | JStr s => quote ++ s ++ quote
  | JList l => "[" ++ join "," (map render l) ++ "]"
  | JDict d =>
      "{" ++ join "," (map (fun kv => quote ++ fst kv ++ quote ++ ":" ++ render (snd kv)) d)
          ++ "}"
  end.

(** orjson on these objects: JSON values are written as they are, any other
    object goes through the hook once, and a hook that raises makes the
    encoder raise its [JSONEncodeError], a [TypeError]. *)
Definition dumps (hook : pyobj -> outcome pyobj) (data : pyobj) : outcome string :=
  match data with
  | Json v => Return (render v)
  | other =>
      match hook other with
      | Return (Json v) => Return (render v)
      | Return _ => Raise (Exception "JSONEncodeError" "default serializer exceeds recursion limit")
      | Raise _ => Raise (Exception "JSONEncodeError" "Type is not JSON serializable")
      end
  end.

Definition hooks : hooks pyobj :=
  {| is_topods_shape := fun o => match o with Shape _ => true | _ => false end;
     is_toploc_location := fun o => match o with Location _ => true | _ => false end;
     serialize := fun o => match o with Shape brep => brep | _ => "" end;
     b64encode := fun s => s;
     loc_to_tq := fun o => match o with Location tq => Json tq | _ => o end;
     isinstance_Enum := fun o => match o with Member _ => true | _ => false end;
     enum_value := fun o => match o with Member v => Json v | _ => o end;
     type_repr := fun o => match o with
                           | Object c => "<class '" ++ c ++ "'>"
                           | _ => "<class 'object'>"
                           end;
     of_json := Json;
     orjson_dumps := dumps |}.

(** [json.loads] on the texts of a given list of values. *)
Definition loads (known : list json) (text : string) : outcome json :=
  match find (fun v => String.eqb (render v) text) known with
  | Some v => Return v
  | None => Raise (Exception "JSONDecodeError" "Expecting value")
  end.

(** The parts of a POSIX path. *)
Fixpoint parts_from (s : string) (part : string) : list string :=
  match s with
  | EmptyString => if String.eqb part "" then [] else [part]
  | String c s' =>
      if Ascii.eqb c "/"%char
      then (if String.eqb part "" then parts_from s' "" else part :: parts_from s' "")
      else parts_from s' (part ++ String c EmptyString)
  end.

Fixpoint starts_with (prefix l : list string) : bool :=
  match prefix, l with
  | [], _ => true
  | p :: prefix', x :: l' => String.eqb p x && starts_with prefix' l'
  | _ :: _, [] => false
  end.

(** An absolute directory lies under an absolute root when the root's parts
    start its own. *)
Definition lies_under (cwd root : string) : bool :=
  starts_with (parts_from root "") (parts_from cwd "").

Definition refused : exn := Exception "ConnectionRefusedError" "[Errno 111] Connection refused".

(** A machine where the ports [listening] accept connections, the current
    directory is [cwd], no Jupyter console is installed, and a viewer answers
    a command with [reply]. *)
Definition machine (ocp_port : option string) (listening : list Z) (cwd : string)
  (reply : json) : env :=
  {| OCP_PORT := ocp_port;
     connect_ex := fun port => if existsb (Z.eqb port) listening then 0%Z else 111%Z;
     cwd_is_relative_to := lies_under cwd;
     JCONSOLE := false;
     ipython_kernel := None;
     connection_info := fun _ => Raise (Exception "FileNotFoundError" "No such file");
     config_file := "~/.ocpvscode";
     ws_connect := fun url =>
       if existsb (fun port => String.eqb url (url_of (PortInt port))) listening
       then Return tt else Raise refused;
     ws_send := fun _ => Return tt;
     ws_recv := Return (render reply);
     ws_close := Return tt;
     json_loads := loads [reply] |}.

(** A callback that returns. *)
Definition quiet : json -> MessageType -> outcome unit := fun _ _ => Return tt.

(** Two viewers, both open on a folder the current directory lies under. *)
Definition two_viewers : state_store :=
  [("3939", {| roots := Some ["/home/user/project"]; connection_file := None |});
   ("3940", {| roots := Some ["/home/user"]; connection_file := None |})].

(** Two viewers open on other folders. *)
Definition other_folders : state_store :=
  [("3939", {| roots := Some ["/srv/a"]; connection_file := None |});
   ("3940", {| roots := Some ["/srv/b"]; connection_file := None |})].

Definition cwd : string := "/home/user/project/src".

(** Both viewers listen and the current directory lies under both. *)
Definition both_match : env := machine None [3939; 3940]%Z cwd JNull.

(** One viewer listens on 3939 and answers a command with [true]. *)
Definition one_viewer : env := machine None [3939]%Z cwd (JBool true).

(** Nothing listens. *)
Definition no_viewer : env := machine None [] cwd JNull.

(** Viewers listen on 3939 and 4000, and OCP_PORT names the second. *)
Definition override_4000 : env := machine (Some "4000") [3939; 4000]%Z cwd JNull.

Definition previous_snapshot : dict json := [("a", JInt 1); ("b", JInt 2)].

Definition new_snapshot : dict json := [("a", JInt 1); ("b", JInt 3); ("c", JInt 4)].

Definition status_fields : dict json :=
  [("command", JStr "status"); ("text", JDict new_snapshot)].

Definition model_status_fields : dict json :=
  [("model", JDict [("x", JInt 1)]); ("command", JStr "status");
   ("text", JDict new_snapshot)].

Definition unknown_fields : dict json := [("foo", JStr "bar")].

(** A listener's machine: [json.loads] reads the text of [message]. *)
Definition receiving (message : json) : env := machine None [3939]%Z cwd message.

(** The same machine with another answer of [recv]. *)
Definition with_recv (E : env) (received : outcome string) : env :=
  {| OCP_PORT := OCP_PORT E; connect_ex := connect_ex E;
     cwd_is_relative_to := cwd_is_relative_to E; JCONSOLE := JCONSOLE E;
     ipython_kernel := ipython_kernel E; connection_info := connection_info E;
     config_file := config_file E; ws_connect := ws_connect E; ws_send := ws_send E;
     ws_recv := received; ws_close := ws_close E; json_loads := json_loads E |}.

(** The same machine inside a Jupyter console whose kernel names the
    connection file [cf]. *)
Definition in_jupyter (E : env) (cf : string) : env :=
  {| OCP_PORT := OCP_PORT E; connect_ex := connect_ex E;
     cwd_is_relative_to := cwd_is_relative_to E; JCONSOLE := true;
     ipython_kernel := Some (Return cf); connection_info := connection_info E;
     config_file := config_file E; ws_connect := ws_connect E; ws_send := ws_send E;
     ws_recv := ws_recv E; ws_close := ws_close E; json_loads := json_loads E |}.

Definition connection_closed : exn :=
  Exception "ConnectionClosedError" "no close frame received or sent".

Definition keyboard_interrupt : exn := BaseException "KeyboardInterrupt" "".

(** The viewer takes the command and hangs up without a reply. *)
Definition silent_viewer : env := with_recv one_viewer (Raise connection_closed).

(** The user presses Ctrl-C while the reply is awaited. *)
Definition interrupted : env := with_recv one_viewer (Raise keyboard_interrupt).

(** OCP_PORT holds text that is no number. *)
Definition bad_override : env := machine (Some "abc") [3939]%Z cwd JNull.

(** OCP_PORT holds -1, and one viewer listens on 3940. *)
Definition negative_override : env := machine (Some "-1") [3940]%Z cwd JNull.

(** Only the viewer on 3940 listens. *)
Definition only_3940 : env := machine None [3940]%Z cwd JNull.

(** A Jupyter console whose connection file cannot be read. *)
Definition broken_jupyter : env := in_jupyter override_4000 "kernel-1.json".

(** A callback that raises. *)
Definition failing : json -> MessageType -> outcome unit :=
  fun _ _ => Raise (Exception "ValueError" "bad model").

Definition model_fields : dict json := [("model", JDict [("x", JInt 1)])].

Definition status_without_text : dict json := [("command", JStr "status")].

End Demo.

(** ** The JSON codec

    [_send] writes its payload with [orjson.dumps] and reads a reply with
    [json.loads]; [_listen] reads every message with [json.loads].  Both are
    libraries.  This module gives them as functions, to state what the two do
    together: a writer of compact JSON and a parser of JSON texts, on the
    values of [json] and with str as its UTF-8 bytes. *)

Module Codec.

Definition double_quote : ascii := "034"%char.
Definition backslash : ascii := "092"%char.

(** *** Writing: [orjson.dumps] *)

(** One lower-case hexadecimal digit. *)
Definition hex_char (n : N) : ascii :=
  ascii_of_N (if (n <? 10)%N then 48 + n else 87 + n)%N.

(** Modelled from the spec: how the writer ([orjson.dumps], not among the
    sources) writes a byte of a str inside a JSON string.  The quote and the
    backslash take a backslash, a control character its short escape or
    [\u00xx], any other byte (the bytes of a UTF-8 sequence too) is written
    as it is. *)
Definition escape_char (c : ascii) : string :=
  let n := N_of_ascii c in
  if Ascii.eqb c double_quote then String backslash (String double_quote "")
  else if Ascii.eqb c backslash then String backslash (String backslash "")
  else if (n =? 8)%N then String backslash "b"
  else if (n =? 9)%N then String backslash "t"
  else if (n =? 10)%N then String backslash "n"
  else if (n =? 12)%N then String backslash "f"
  else if (n =? 13)%N then String backslash "r"
  else if (n <? 32)%N
  then String backslash
         ("u00" ++ String (hex_char (n / 16)) (String (hex_char (n mod 16)) ""))
  else String c "".

Fixpoint escape (s : string) : string :=
  match s with
  | EmptyString => ""
  | String c s' => escape_char c ++ escape s'
  end.

Definition text_of_str (s : string) : string :=
  String double_quote (escape s ++ String double_quote "").

(** Modelled from the spec: the writer of [encode], which "serializes
    payload to compact JSON".  The code calls [orjson.dumps] for it, a
    library that is not among the sources.  Compact means no whitespace:
    items are separated by [,] and a key from its value by [:]. *)
Fixpoint json_text (v : json) : string :=
  match v with
  | JNull => "null"
  | JBool true => "true"
  | JBool false => "false"
  | JInt z => py_str_int z
  | JStr s => text_of_str s
  | JList l => "[" ++ join "," (map json_text l) ++ "]"
  | JDict d =>
      "{" ++ join "," (map (fun kv => text_of_str (fst kv) ++ ":" ++ json_text (snd kv)) d)
          ++ "}"
  end.

(** orjson does not write every JSON value: by its documentation it raises
    its [JSONEncodeError] for an int outside 64 bits, and for lists and dicts
    nested beyond its recursion limit. *)

(** Every int is at least [-2^63] and less than [2^64]. *)
Fixpoint ints_fit (v : json) : bool :=
  match v with
  | JInt z => ((- 2 ^ 63 <=? z) && (z <? 2 ^ 64))%Z
  | JList l => forallb ints_fit l
  | JDict d => forallb (fun kv => ints_fit (snd kv)) d
  | _ => true
  end.

(** How deep lists and dicts are nested. *)
Fixpoint depth (v : json) : nat :=
  match v with
  | JList l => S (fold_right (fun x m => Nat.max (depth x) m) O l)
  | JDict d => S (fold_right (fun kv m => Nat.max (depth (snd kv)) m) O d)
  | _ => O
  end.

Definition recursion_limit : nat := 254.

(** Modelled from the spec: the JSON values [orjson.dumps] writes. *)
Definition within_limits (v : json) : bool :=
  ints_fit v && (depth v <=? recursion_limit)%nat.

(** Modelled from the spec: [orjson.dumps] on a JSON value, the compact text
    or a [JSONEncodeError]. *)
Definition write (v : json) : outcome string :=
  if within_limits v
  then Return (json_text v)
  else Raise (Exception "JSONEncodeError"
                (if ints_fit v then "Recursion limit reached"
                 else "Integer exceeds 64-bit range")).

(** Modelled from the spec: [orjson.dumps(data, default=default)] on the
    objects of [Demo].  A JSON value is written by [write]; any other object
    goes through the hook once, and a hook that raises makes the encoder
    raise its [JSONEncodeError]. *)
Definition dumps (hook : Demo.pyobj -> outcome Demo.pyobj) (data : Demo.pyobj)
  : outcome string :=
  match data with
  | Demo.Json v => write v
  | other =>
      match hook other with
      | Return (Demo.Json v) => write v
      | Return _ =>
          Raise (Exception "JSONEncodeError" "default serializer exceeds recursion limit")
      | Raise _ => Raise (Exception "JSONEncodeError" "Type is not JSON serializable")
      end
  end.

(** The libraries of [Demo], with this writer for orjson. *)
Definition hooks : hooks Demo.pyobj :=
  {| is_topods_shape := is_topods_shape Demo.hooks;
     is_toploc_location := is_toploc_location Demo.hooks;
     serialize := serialize Demo.hooks;
     b64encode := b64encode Demo.hooks;
     loc_to_tq := loc_to_tq Demo.hooks;
     isinstance_Enum := isinstance_Enum Demo.hooks;
     enum_value := enum_value Demo.hooks;
     type_repr := type_repr Demo.hooks;
     of_json := Demo.Json;
     orjson_dumps := dumps |}.

(** *** Reading: [json.loads] *)

Definition decode_error (msg : string) : exn := Exception "JSONDecodeError" msg.

(** JSON whitespace: space, tab, line feed, carriage return. *)
Definition is_ws (c : ascii) : bool :=
  let n := N_of_ascii c in
  ((n =? 32) || (n =? 9) || (n =? 10) || (n =? 13))%N.

Fixpoint skip_ws (s : string) : string :=
  match s with
  | EmptyString => EmptyString
  | String c s' => if is_ws c then skip_ws s' else s
  end.

(** [s] without the prefix [p], when it starts with [p]. *)
Fixpoint strip_prefix (p s : string) : option string :=
  match p, s with
  | EmptyString, _ => Some s
  | String a p', String b s' => if Ascii.eqb a b then strip_prefix p' s' else None
  | String _ _, EmptyString => None
  end.

(** **** Strings *)

Definition hex_value (c : ascii) : option N :=
  let n := N_of_ascii c in
  if ((48 <=? n) && (n <=? 57))%N then Some (n - 48)%N
  else if ((97 <=? n) && (n <=? 102))%N then Some (n - 87)%N
  else if ((65 <=? n) && (n <=? 70))%N then Some (n - 55)%N
  else None.

Definition hex4 (w x y z : ascii) : option N :=
  match hex_value w, hex_value x, hex_value y, hex_value z with
  | Some a, Some b, Some c, Some d => Some (((a * 16 + b) * 16 + c) * 16 + d)%N
  | _, _, _, _ => None
  end.

(** The character a one-letter escape stands for. *)
Definition unescape (e : ascii) : option ascii :=
  if Ascii.eqb e double_quote || Ascii.eqb e backslash || Ascii.eqb e "/"%char then Some e
  else if Ascii.eqb e "b"%char then Some "008"%char
  else if Ascii.eqb e "f"%char then Some "012"%char
  else if Ascii.eqb e "n"%char then Some "010"%char
  else if Ascii.eqb e "r"%char then Some "013"%char
  else if Ascii.eqb e "t"%char then Some "009"%char
  else None.

(** What a JSON string is made of: bytes standing for themselves, and the
    UTF-16 code units of [\uXXXX] escapes. *)
Inductive piece : Type :=
| Raw (c : ascii)
| Escaped (u : N).

(** Modelled from the spec: how the parser ([json.loads], not among the
    sources) reads a string: the text after an opening quote, up to the
    closing one.  A raw control character is refused, as are an unknown
    escape and a missing closing quote. *)
Fixpoint parse_pieces (s : string) : option (list piece * string) :=
  match s with
  | EmptyString => None
  | String c s1 =>
      if Ascii.eqb c double_quote then Some ([], s1)
      else if Ascii.eqb c backslash then
        match s1 with
        | EmptyString => None
        | String e s2 =>
            if Ascii.eqb e "u"%char then
              match s2 with
              | String w (String x (String y (String z s3))) =>
                  match hex4 w x y z, parse_pieces s3 with
                  | Some u, Some (ps, rest) => Some (Escaped u :: ps, rest)
                  | _, _ => None
                  end
              | _ => None
              end
            else
              match unescape e, parse_pieces s2 with
              | Some b, Some (ps, rest) => Some (Raw b :: ps, rest)
              | _, _ => None
              end
        end
      else if (N_of_ascii c <? 32)%N then None
      else
        match parse_pieces s1 with
        | Some (ps, rest) => Some (Raw c :: ps, rest)
        | None => None
        end
  end.

(** The UTF-8 bytes of a code point. *)
Definition utf8 (u : N) : string :=
  (if u <? 128 then String (ascii_of_N u) ""
   else if u <? 2048
   then String (ascii_of_N (192 + u / 64)) (String (ascii_of_N (128 + u mod 64)) "")
   else if u <? 65536
   then String (ascii_of_N (224 + u / 4096))
          (String (ascii_of_N (128 + (u / 64) mod 64))
             (String (ascii_of_N (128 + u mod 64)) ""))
   else String (ascii_of_N (240 + u / 262144))
          (String (ascii_of_N (128 + (u / 4096) mod 64))
             (String (ascii_of_N (128 + (u / 64) mod 64))
                (String (ascii_of_N (128 + u mod 64)) ""))))%N.

Definition high_surrogate (u : N) : bool := ((55296 <=? u) && (u <? 56320))%N.
Definition low_surrogate (u : N) : bool := ((56320 <=? u) && (u <? 57344))%N.

(** The str of a parsed string, as its UTF-8 bytes: a high surrogate followed
    by a low one is one code point. *)
Fixpoint text_of_pieces (ps : list piece) : string :=
  match ps with
  | [] => ""
  | Raw c :: ps' => String c (text_of_pieces ps')
  | Escaped u :: ps' =>
      match ps' with
      | Escaped lo :: ps'' =>
          if high_surrogate u && low_surrogate lo
          then utf8 (65536 + (u - 55296) * 1024 + (lo - 56320))%N ++ text_of_pieces ps''
          else utf8 u ++ text_of_pieces ps'
      | _ => utf8 u ++ text_of_pieces ps'
      end
  end.

(** **** Numbers *)

Definition is_digit (c : ascii) : bool :=
  ((48 <=? N_of_ascii c) && (N_of_ascii c <=? 57))%N.

(** The characters a JSON number is written with. *)
Definition number_char (c : ascii) : bool :=
  is_digit c || Ascii.eqb c "-"%char || Ascii.eqb c "+"%char
  || Ascii.eqb c "."%char || Ascii.eqb c "e"%char || Ascii.eqb c "E"%char.

Fixpoint span_number (s : string) : string * string :=
  match s with
  | EmptyString => ("", "")
  | String c s' =>
      if number_char c
      then (let (t, rest) := span_number s' in (String c t, rest))
      else ("", s)
  end.

(** [0] alone, or digits that do not start with [0]. *)
Definition no_leading_zero (u : Decimal.uint) : bool :=
  match u with
  | Decimal.D0 Decimal.Nil => true
  | Decimal.D0 _ => false
  | _ => true
  end.

(** The int of a token: an optional [-], then digits with
    [no_leading_zero]. *)
Definition int_literal (t : string) : option Z :=
  match NilZero.int_of_string t with
  | Some d =>
      if no_leading_zero (match d with Decimal.Pos u => u | Decimal.Neg u => u end)
      then Some (Z.of_int d)
      else None
  | None => None
  end.

(** Modelled from the spec: how the parser reads a number.  One with a
    fraction or an exponent is a Python float, which [json] has no value for:
    no result is given there. *)
Definition parse_number (s : string) : outcome (json * string) :=
  let (t, rest) := span_number s in
  match int_literal t with
  | Some z => Return (JInt z, rest)
  | None => Raise (decode_error "not an int literal")
  end.

(** **** Values *)

(** [d[k] = v] for the items in the order they were read: of a repeated key
    the last value stays. *)
Definition dict_of_items (items : list (string * json)) : list (string * json) :=
  fold_left (fun d kv => dict_set d (fst kv) (snd kv)) items [].

Definition out_of_fuel {A : Type} : outcome A :=
  Raise (Exception "RecursionError" "maximum recursion depth exceeded").

(** Modelled from the spec: the parser behind [json.loads].  One value at
    the head of [s], and the text behind it; [parse_elements] reads the items
    of a list behind its opening bracket, [parse_members] the items of a dict.
    [fuel] bounds how deep the calls nest. *)
Fixpoint parse_value (fuel : nat) (s : string) : outcome (json * string) :=
  match fuel with
  | O => out_of_fuel
  | S fuel' =>
      match skip_ws s with
      | EmptyString => Raise (decode_error "Expecting value")
      | String c rest =>
          if Ascii.eqb c double_quote then
            match parse_pieces rest with
            | Some (ps, rest') => Return (JStr (text_of_pieces ps), rest')
            | None => Raise (decode_error "Invalid string")
            end
          else if Ascii.eqb c "["%char then
            match strip_prefix "]" (skip_ws rest) with
            | Some rest' => Return (JList [], rest')
            | None =>
                match parse_elements fuel' rest with
                | Return (l, rest') => Return (JList l, rest')
                | Raise e => Raise e
                end
            end
          else if Ascii.eqb c "{"%char then
            match strip_prefix "}" (skip_ws rest) with
            | Some rest' => Return (JDict [], rest')
            | None =>
                match parse_members fuel' rest with
                | Return (items, rest') => Return (JDict (dict_of_items items), rest')
                | Raise e => Raise e
                end
            end
          else if is_digit c || Ascii.eqb c "-"%char then parse_number (String c rest)
          else
            match strip_prefix "null" (String c rest) with
            | Some rest' => Return (JNull, rest')
            | None =>
                match strip_prefix "true" (String c rest) with
                | Some rest' => Return (JBool true, rest')
                | None =>
                    match strip_prefix "false" (String c rest) with
                    | Some rest' => Return (JBool false, rest')
                    | None => Raise (decode_error "Expecting value")
                    end
                end
            end
      end
  end
with parse_elements (fuel : nat) (s : string) : outcome (list json * string) :=
  match fuel with
  | O => out_of_fuel
  | S fuel' =>
      match parse_value fuel' s with
      | Raise e => Raise e
      | Return (v, r) =>
          match strip_prefix "," (skip_ws r) with
          | Some r' =>
              match parse_elements fuel' r' with
              | Return (l, r'') => Return (v :: l, r'')
              | Raise e => Raise e
              end
          | None =>
              match strip_prefix "]" (skip_ws r) with
              | Some r' => Return ([v], r')
              | None => Raise (decode_error "Expecting ',' delimiter")
              end
          end
      end
  end
with parse_members (fuel : nat) (s : string)
  : outcome (list (string * json) * string) :=
  match fuel with
  | O => out_of_fuel
  | S fuel' =>
      match strip_prefix (String double_quote "") (skip_ws s) with
      | None =>
          Raise (decode_error "Expecting property name enclosed in double quotes")
      | Some r0 =>
          match parse_pieces r0 with
          | None => Raise (decode_error "Invalid string")
          | Some (ps, r1) =>
              match strip_prefix ":" (skip_ws r1) with
              | None => Raise (decode_error "Expecting ':' delimiter")
              | Some r2 =>
                  match parse_value fuel' r2 with
                  | Raise e => Raise e
                  | Return (v, r3) =>
                      match strip_prefix "," (skip_ws r3) with
                      | Some r4 =>
                          match parse_members fuel' r4 with
                          | Return (items, r5) =>
                              Return ((text_of_pieces ps, v) :: items, r5)
                          | Raise e => Raise e
                          end
                      | None =>
                          match strip_prefix "}" (skip_ws r3) with
                          | Some r4 => Return ([(text_of_pieces ps, v)], r4)
                          | None => Raise (decode_error "Expecting ',' delimiter")
                          end
                      end
                  end
              end
          end
      end
  end.

(** Modelled from the spec: "decoding is plain JSON parse".  The code calls
    [json.loads] for it, a library that is not among the sources.  One value,
    with whitespace allowed around it and nothing else behind it.  Of two
    calls nested in each other one has read a byte, so twice the length of
    the text and one more is fuel enough. *)
Definition loads (text : string) : outcome json :=
  match parse_value (2 * String.length text + 1) text with
  | Return (v, rest) =>
      match skip_ws rest with
      | EmptyString => Return v
      | String _ _ => Raise (decode_error "Extra data")
      end
  | Raise e => Raise e
  end.

(** *** Notions used in the statements *)

(** A JSON-representable payload: a value whose dicts have distinct keys, as
    every Python dict has, and that orjson writes. *)
Definition representable (v : json) : Prop :=
  json_wf v /\ within_limits v = true.

(** The piece the reader finds for a byte the writer escaped. *)
Definition piece_of (c : ascii) : piece :=
  match escape_char c with
  | String _ (String "u"%char _) => Escaped (N_of_ascii c)
  | _ => Raw c
  end.

(** A text that is not the continuation of a number. *)
Definition stops (rest : string) : bool :=
  match rest with
  | EmptyString => true
  | String c _ => negb (number_char c)
  end.

(** The reader gives [v] back from its text, with the text behind it. *)
Definition reads_back (v : json) : Prop :=
  forall (fuel : nat) (rest : string),
    stops rest = true ->
    (String.length (json_text v) <= fuel)%nat ->
    parse_value fuel (json_text v ++ rest) = Return (v, rest).

End Codec.

(** * Properties *)

(** ** Running a call step by step *)

Section OnlyEvents.
Variable P : event -> bool.

Lemma only_ret {A : Type} (a : A) : only_events P (ret a).
Proof. intros s. exists []. simpl. rewrite app_nil_r. repeat split. Qed.

Lemma only_raise {A : Type} (e : exn) : only_events P (@raise A e).
Proof. intros s. exists []. simpl. rewrite app_nil_r. repeat split. Qed.

Lemma only_lift {A : Type} (o : outcome A) : only_events P (lift o).
Proof. intros s. exists []. simpl. rewrite app_nil_r. repeat split. Qed.

Lemma only_emit (e : event) : P e = true -> only_events P (emit e).
Proof. intros He s. exists [e]. simpl. rewrite He. repeat split. Qed.

Lemma only_bind {A B : Type} (m : M A) (k : A -> M B) :
  only_events P m -> (forall a, only_events P (k a)) -> only_events P (bind m k).
Proof.
  intros Hm Hk s. unfold bind.
  destruct (Hm s) as (evs & Htr & Hall & Hc & Hi).
  destruct (m s) as [[a|e] s1]; simpl in *.
  - destruct (Hk a s1) as (evs' & Htr' & Hall' & Hc' & Hi').
    exists (evs ++ evs')%list. rewrite Htr', Htr, app_assoc, forallb_app, Hall, Hall'.
    repeat split; congruence.
  - exists evs. repeat split; assumption.
Qed.

Lemma only_try_except {A : Type} (body : M A) (handler : exn -> M A) :
  only_events P body -> (forall e, only_events P (handler e)) ->
  only_events P (try_except body handler).
Proof.
  intros Hm Hk s. unfold try_except.
  destruct (Hm s) as (evs & Htr & Hall & Hc & Hi).
  destruct (body s) as [[a|e] s1]; simpl in *.
  - exists evs. repeat split; assumption.
  - destruct (isinstance_Exception e).
    + destruct (Hk e s1) as (evs' & Htr' & Hall' & Hc' & Hi').
      exists (evs ++ evs')%list. rewrite Htr', Htr, app_assoc, forallb_app, Hall, Hall'.
      repeat split; congruence.
    + exists evs. repeat split; assumption.
Qed.

End OnlyEvents.

(** ** Strings *)

Lemma append_assoc (a b c : string) : (a ++ b) ++ c = a ++ (b ++ c).
Proof. induction a as [|ch a IH]; simpl; [reflexivity|now rewrite IH]. Qed.

Lemma drop_prefix_app (a b : string) : drop_prefix (String.length a) (a ++ b) = b.
Proof. induction a as [|c a IH]; simpl; auto. Qed.

Lemma occurs_in_refl (p : string) : occurs_in p p.
Proof.
  exists "", "". simpl.
  induction p as [|c p IH]; simpl; [reflexivity|now rewrite <- IH].
Qed.

Lemma occurs_in_behind (p s before : string) :
  occurs_in p s -> occurs_in p (before ++ s).
Proof.
  intros (x & y & ->). exists (before ++ x), y.
  now rewrite !append_assoc.
Qed.

Lemma occurs_in_ahead (p s rest : string) :
  occurs_in p s -> occurs_in p (s ++ rest).
Proof.
  intros (x & y & ->). exists x, (y ++ rest).
  now rewrite !append_assoc.
Qed.

Lemma occurs_in_join (sep : string) (parts : list string) (p : string) :
  In p parts -> occurs_in p (join sep parts).
Proof.
  induction parts as [|q rest IH]; intros Hin; [destruct Hin|].
  destruct rest as [|r rest'].
  - destruct Hin as [<- | []]. apply occurs_in_refl.
  - change (join sep (q :: r :: rest')) with (q ++ sep ++ join sep (r :: rest')).
    destruct Hin as [<- | Hin].
    + exists "", (sep ++ join sep (r :: rest')). reflexivity.
    + now apply occurs_in_behind, occurs_in_behind, IH.
Qed.

(** ** The kind tag *)

Lemma kind_prefix_tagged (m : MessageType) :
  tagged m = true -> String.length (kind_prefix m) = 2%nat.
Proof. destruct m; simpl; intros Ht; try reflexivity; discriminate. Qed.

Lemma kind_prefix_untagged (m : MessageType) :
  tagged m = false -> kind_prefix m = "".
Proof. destruct m; simpl; intros Ht; try reflexivity; discriminate. Qed.

(** ** Sending *)

(** A send that knows its port resolves nothing: it is the send with that
    port given. *)
Lemma _send_known_port {obj : Type} (H : hooks obj) (E : env) (data : obj)
  (mt : MessageType) (port : option pyport) (timeit : bool) (s : state) (p : pyport) :
  port_known s port p ->
  _send H E data mt port timeit s = _send H E data mt (Some p) timeit s.
Proof.
  intros [-> | (-> & Hinit & Hport)]; [reflexivity|].
  unfold _send, bind, read_INIT_DONE, read_CMD_PORT, ret.
  rewrite Hinit. run. rewrite Hport. reflexivity.
Qed.

Lemma _send_encode_raises {obj : Type} (H : hooks obj) (E : env) (data : obj)
  (mt : MessageType) (timeit : bool) (s : state) (p : pyport) (e : exn) :
  encode H data mt = Raise e ->
  isinstance_Exception e = true ->
  _send H E data mt (Some p) timeit s
  = (Return JNull, after s [EvPrint (cannot_connect p); EvPrint (str_exn e)]).
Proof.
  intros He Hex.
  unfold _send, bind, try_except, lift, ret, print. run.
  rewrite He. run. rewrite Hex. settle.
Qed.

Lemma _send_connect_raises {obj : Type} (H : hooks obj) (E : env) (data : obj)
  (mt : MessageType) (timeit : bool) (s : state) (p : pyport) (j : string) (e : exn) :
  encode H data mt = Return j ->
  ws_connect E (url_of p) = Raise e ->
  isinstance_Exception e = true ->
  _send H E data mt (Some p) timeit s
  = (Return JNull,
     after s [EvConnect (url_of p) None; EvPrint (cannot_connect p); EvPrint (str_exn e)]).
Proof.
  intros He Hc Hex.
  unfold _send, bind, try_except, lift, ret, print. run.
  rewrite He. run. rewrite Hc. run. rewrite Hex. settle.
Qed.

Lemma _send_send_raises {obj : Type} (H : hooks obj) (E : env) (data : obj)
  (mt : MessageType) (timeit : bool) (s : state) (p : pyport) (j : string) (e : exn) :
  encode H data mt = Return j ->
  ws_connect E (url_of p) = Return tt ->
  ws_send E j = Raise e ->
  isinstance_Exception e = true ->
  _send H E data mt (Some p) timeit s
  = (Return JNull,
     after s [EvConnect (url_of p) None; EvSend j;
              EvPrint (cannot_connect p); EvPrint (str_exn e)]).
Proof.
  intros He Hc Hs Hex.
  unfold _send, bind, try_except, lift, ret, print. run.
  rewrite He. run. rewrite Hc. run. rewrite Hs. run. rewrite Hex. settle.
Qed.

Lemma _send_command_reply {obj : Type} (H : hooks obj) (E : env) (data : obj)
  (timeit : bool) (s : state) (p : pyport) (j reply : string) (v : json) :
  encode H data COMMAND = Return j ->
  ws_connect E (url_of p) = Return tt ->
  ws_send E j = Return tt ->
  ws_recv E = Return reply ->
  json_loads E reply = Return v ->
  _send H E data COMMAND (Some p) timeit s
  = (Return v, after s [EvConnect (url_of p) None; EvSend j; EvRecv; EvClose]).
Proof.
  intros He Hc Hs Hr Hl.
  unfold _send, bind, try_except, try_except_all, lift, ret, print. run.
  rewrite He. run. rewrite Hc. run. rewrite Hs. run. rewrite Hr. run. rewrite Hl. run.
  destruct (ws_close E); settle.
Qed.

Lemma _send_fire_and_forget {obj : Type} (H : hooks obj) (E : env) (data : obj)
  (mt : MessageType) (timeit : bool) (s : state) (p : pyport) (j : string) :
  mt <> COMMAND ->
  encode H data mt = Return j ->
  ws_connect E (url_of p) = Return tt ->
  ws_send E j = Return tt ->
  _send H E data mt (Some p) timeit s
  = (Return JNull, after s [EvConnect (url_of p) None; EvSend j; EvClose]).
Proof.
  intros Hm He Hc Hs.
  assert (Hneq : MessageType_eqb mt COMMAND = false)
    by (destruct mt; try reflexivity; contradiction Hm; reflexivity).
  unfold _send, bind, try_except, try_except_all, lift, ret, print. run.
  rewrite He. run. rewrite Hc. run. rewrite Hs. run. rewrite Hneq. run.
  destruct (ws_close E); settle.
Qed.

(** C5. An outbound send that knows its port and whose payload encodes to
    the frame [j]: (a) as a COMMAND, once connect and send succeed, it
    receives the reply, parses it as JSON and returns the parsed value;
    (b) with any other kind it sends, closes and returns null, and never
    calls recv; (c) when connect or send raises an [Exception] (no listener
    on the port, say), it returns null, so nothing is raised to the
    caller. *)
Theorem send_outcomes {obj : Type} (H : hooks obj) (E : env) (data : obj)
  (mt : MessageType) (port : option pyport) (timeit : bool) (s : state)
  (p : pyport) (j : string) :
  port_known s port p ->
  encode H data mt = Return j ->
  (forall reply v,
      mt = COMMAND ->
      ws_connect E (url_of p) = Return tt ->
      ws_send E j = Return tt ->
      ws_recv E = Return reply ->
      json_loads E reply = Return v ->
      _send H E data mt port timeit s
      = (Return v, after s [EvConnect (url_of p) None; EvSend j; EvRecv; EvClose]))
  /\ (mt <> COMMAND ->
      ws_connect E (url_of p) = Return tt ->
      ws_send E j = Return tt ->
      _send H E data mt port timeit s
      = (Return JNull, after s [EvConnect (url_of p) None; EvSend j; EvClose]))
  /\ (forall e,
      isinstance_Exception e = true ->
      ws_connect E (url_of p) = Raise e
      \/ (ws_connect E (url_of p) = Return tt /\ ws_send E j = Raise e) ->
      fst (_send H E data mt port timeit s) = Return JNull).
Proof.
  intros Hk He.
  rewrite (_send_known_port H E data mt port timeit s p Hk).
  repeat split.
  - intros reply v -> Hc Hs Hr Hl.
    now apply _send_command_reply with (reply := reply).
  - intros Hm Hc Hs. now apply _send_fire_and_forget.
  - intros e Hex [Hc | [Hc Hs]].
    + now rewrite (_send_connect_raises H E data mt timeit s p j e).
    + now rewrite (_send_send_raises H E data mt timeit s p j e).
Qed.

(** C1, as the code has it.  When encoding the payload raises an [Exception]
    (the hook rejects an object, so orjson raises its [TypeError]), a send
    that knows its port prints the two diagnostic lines, opens no connection
    and returns null: the error is caught inside [_send] and does not reach
    the caller. *)
Theorem serialization_error_returns_null {obj : Type} (H : hooks obj) (E : env)
  (data : obj) (mt : MessageType) (port : option pyport) (timeit : bool)
  (s : state) (p : pyport) (e : exn) :
  port_known s port p ->
  orjson_dumps H (default H) data = Raise e ->
  isinstance_Exception e = true ->
  _send H E data mt port timeit s
  = (Return JNull, after s [EvPrint (cannot_connect p); EvPrint (str_exn e)]).
Proof.
  intros Hk Hd Hex.
  rewrite (_send_known_port H E data mt port timeit s p Hk).
  apply _send_encode_raises; [|exact Hex].
  unfold encode. rewrite Hd. reflexivity.
Qed.

(** C10. With a message type that has no kind tag ([UPDATES]) the frame is
    the JSON bytes alone: [encode] adds nothing in front, and the one frame
    [_send] writes to the connection is exactly these bytes. *)
Theorem untagged_frame_is_bare_json {obj : Type} (H : hooks obj) (E : env)
  (data : obj) (mt : MessageType) (port : option pyport) (timeit : bool)
  (s : state) (p : pyport) (j : string) :
  tagged mt = false ->
  port_known s port p ->
  orjson_dumps H (default H) data = Return j ->
  encode H data mt = Return j
  /\ (ws_connect E (url_of p) = Return tt ->
      ws_send E j = Return tt ->
      sent_frames (trace (snd (_send H E data mt port timeit s)))
      = (sent_frames (trace s) ++ [j])%list).
Proof.
  intros Ht Hk Hd.
  assert (He : encode H data mt = Return j).
  { unfold encode. rewrite Hd, (kind_prefix_untagged mt Ht). reflexivity. }
  split; [exact He|].
  intros Hc Hs.
  rewrite (_send_known_port H E data mt port timeit s p Hk).
  rewrite (_send_fire_and_forget H E data mt timeit s p j); trivial.
  - unfold sent_frames. simpl. rewrite flat_map_app. reflexivity.
  - destruct mt; discriminate.
Qed.

(** ** Port resolution *)

Local Open Scope list_scope.

Lemma scan_states_run (E : env) (states : state_store) :
  forall (port : option pyport) (s : state),
    keys_parse states ->
    exists s' evs,
      scan_states E states port s = (Return (scan_result E states port), s')
      /\ same_globals s s'
      /\ trace s' = trace s ++ evs
      /\ (forall entry n, In entry states -> py_int (fst entry) = Return n ->
                          In (EvProbe n) evs).
Proof.
  induction states as [|[p st] rest IH]; intros port s Hkeys.
  - exists s, []. repeat split; try (rewrite app_nil_r; reflexivity). intros ? ? [].
  - inversion Hkeys as [|entry l [n Hn] Hrest]; subst. simpl in Hn.
    simpl scan_states. simpl scan_result. unfold bind, lift. rewrite Hn. run.
    destruct (Z.eqb (connect_ex E n) 0) eqn:Halive; run.
    + destruct (IH (match_roots E (get_roots st) n port) (after s [EvProbe n]) Hrest)
        as (s' & evs & Hrun & [Hc Hi] & Htr & Hin).
      exists s', (EvProbe n :: evs). unfold after in Hrun. rewrite Hrun.
      repeat split; trivial.
      * rewrite Htr. simpl. rewrite <- app_assoc. reflexivity.
      * intros entry m [<- | Hent] Hm.
        -- simpl in Hm. rewrite Hn in Hm. injection Hm as <-. now left.
        -- right. eauto.
    + match goal with
      | |- context [scan_states E rest port ?s0] =>
          destruct (IH port s0 Hrest) as (s' & evs & Hrun & [Hc Hi] & Htr & Hin);
          exists s'; eexists (EvProbe n :: _ :: evs); rewrite Hrun
      end.
      repeat split; trivial.
      * rewrite Htr. simpl. rewrite <- !app_assoc. reflexivity.
      * intros entry m [<- | Hent] Hm.
        -- simpl in Hm. rewrite Hn in Hm. injection Hm as <-. now left.
        -- right. right. eauto.
Qed.

Lemma alive_ports_run (E : env) (states : state_store) :
  forall s : state,
    keys_parse states ->
    exists s',
      alive_ports E states s = (Return (alive_keys E states), s')
      /\ same_globals s s'.
Proof.
  induction states as [|[p st] rest IH]; intros s Hkeys.
  - exists s. repeat split.
  - inversion Hkeys as [|entry l [n Hn] Hrest]; subst. simpl in Hn.
    simpl alive_ports. unfold bind, lift. rewrite Hn. run.
    destruct (IH (after s [EvProbe n]) Hrest) as (s' & Hrun & [Hc Hi]).
    unfold after in Hrun. rewrite Hrun. exists s'. split; [|split; trivial].
    assert (Ha : alive_key E p = Z.eqb (connect_ex E n) 0)
      by (unfold alive_key; rewrite Hn; reflexivity).
    unfold alive_keys. cbn [map filter fst]. rewrite Ha.
    destruct (Z.eqb (connect_ex E n) 0); reflexivity.
Qed.

Lemma match_roots_existsb (E : env) (rs : list string) (n : Z) (port : option pyport) :
  match_roots E rs n port
  = if existsb (cwd_is_relative_to E) rs then Some (PortInt n) else port.
Proof.
  induction rs as [|r rs IH]; simpl; [reflexivity|].
  destruct (cwd_is_relative_to E r); simpl; [reflexivity|exact IH].
Qed.

Lemma scan_result_app (E : env) (pre post : state_store) :
  forall port, keys_parse pre ->
    scan_result E (pre ++ post) port = scan_result E post (scan_result E pre port).
Proof.
  induction pre as [|[p st] pre IH]; intros port Hkeys; [reflexivity|].
  inversion Hkeys as [|entry l [n Hn] Hrest]; subst. simpl in Hn.
  simpl. rewrite Hn. destruct (Z.eqb (connect_ex E n) 0); apply IH; assumption.
Qed.

Lemma scan_result_no_match (E : env) (states : state_store) :
  forall port,
    (forall entry, In entry states -> workspace_match E entry = false) ->
    scan_result E states port = port.
Proof.
  induction states as [|[p st] rest IH]; intros port Hno; [reflexivity|].
  simpl. destruct (py_int p) as [n|e] eqn:Hn; [|reflexivity].
  assert (Hhead := Hno (p, st) (or_introl eq_refl)).
  unfold workspace_match, alive_key in Hhead. simpl in Hhead. rewrite Hn in Hhead.
  destruct (Z.eqb (connect_ex E n) 0).
  - simpl in Hhead. rewrite match_roots_existsb, Hhead. apply IH.
    intros entry Hin. apply Hno. now right.
  - apply IH. intros entry Hin. apply Hno. now right.
Qed.

Lemma scan_result_last_match (E : env) (pre post : state_store) (p : string)
  (st : port_state) (n : Z) (port : option pyport) :
  keys_parse pre ->
  py_int p = Return n ->
  workspace_match E (p, st) = true ->
  (forall entry, In entry post -> workspace_match E entry = false) ->
  scan_result E (pre ++ (p, st) :: post) port = Some (PortInt n).
Proof.
  intros Hkeys Hn Hm Hpost.
  rewrite scan_result_app by assumption. simpl. rewrite Hn.
  unfold workspace_match, alive_key in Hm. simpl in Hm. rewrite Hn in Hm.
  apply andb_prop in Hm as [Halive Hroots].
  rewrite Halive, match_roots_existsb, Hroots.
  now apply scan_result_no_match.
Qed.

Lemma find_port_run (E : env) (s : state) :
  keys_parse (state_file s) ->
  exists s1 evs,
    scan_states E (state_file s) None s
    = (Return (scan_result E (state_file s) None), s1)
    /\ same_globals s s1
    /\ trace s1 = trace s ++ evs
    /\ (forall entry n, In entry (state_file s) -> py_int (fst entry) = Return n ->
                        In (EvProbe n) evs)
    /\ find_port E s
       = match scan_result E (state_file s) None with
         | Some port => (Return port, s1)
         | None =>
             (ports <- alive_ports E (state_file s) ;;
              if Nat.eqb (List.length ports) 1
              then ret (PortStr (hd "" ports))
              else if Nat.ltb 1 (List.length ports)
              then raise (RuntimeError (multiple_ports_message ports))
              else raise (RuntimeError no_port_message))%py s1
         end.
Proof.
  intros Hkeys.
  destruct (scan_states_run E (state_file s) None s Hkeys)
    as (s1 & evs & Hrun & Hg & Htr & Hin).
  exists s1, evs. repeat split; try assumption; try apply Hg.
  unfold find_port, bind at 1, get_state. unfold bind at 1. rewrite Hrun.
  destruct (scan_result E (state_file s) None); reflexivity.
Qed.

Lemma find_and_set_port_no_override (E : env) (s : state) :
  OCP_PORT E = None ->
  find_and_set_port E s
  = match find_port E s with
    | (Return found, s') =>
        (Return tt,
         {| CMD_PORT := found; INIT_DONE := true; state_file := state_file s';
            trace := trace s' ++ [EvPrint ("Using port " ++ str_port found
                                           ++ " taken from config file")] |})
    | (Raise e, s') => (Raise e, s')
    end.
Proof.
  intros Hocp. unfold find_and_set_port. rewrite Hocp.
  replace (py_int "0") with (Return 0%Z) by reflexivity.
  unfold bind, lift. cbn -[find_port str_port append app].
  destruct (find_port E s) as [[found|e] s']; reflexivity.
Qed.

(** C2, as the code has it.  With no environment override, when the State
    Store holds an alive entry with a workspace root above the current
    directory and no later entry is such a match, [find_port] returns the
    port of that entry: of the entries that match, the last one in store
    order wins.  The scan does not stop at a match: every entry of the store
    is probed.  [find_and_set_port] then caches that port. *)
Theorem find_port_last_match_wins (E : env) (s : state) (pre post : state_store)
  (p : string) (st : port_state) (n : Z) :
  state_file s = pre ++ (p, st) :: post ->
  keys_parse (state_file s) ->
  py_int p = Return n ->
  workspace_match E (p, st) = true ->
  (forall entry, In entry post -> workspace_match E entry = false) ->
  fst (find_port E s) = Return (PortInt n)
  /\ (exists probes,
         trace (snd (find_port E s)) = trace s ++ probes
         /\ forall entry m,
              In entry (state_file s) -> py_int (fst entry) = Return m ->
              In (EvProbe m) probes)
  /\ (OCP_PORT E = None ->
      fst (find_and_set_port E s) = Return tt
      /\ CMD_PORT (snd (find_and_set_port E s)) = PortInt n
      /\ INIT_DONE (snd (find_and_set_port E s)) = true).
Proof.
  intros Hstore Hkeys Hn Hm Hpost.
  destruct (find_port_run E s Hkeys) as (s1 & evs & _ & _ & Htr & Hin & Hfind).
  assert (Hpre : keys_parse pre).
  { unfold keys_parse in *. rewrite Hstore in Hkeys.
    apply Forall_app in Hkeys. apply Hkeys. }
  rewrite Hstore in Hfind at 1.
  rewrite (scan_result_last_match E pre post p st n None Hpre Hn Hm Hpost) in Hfind.
  split; [|split].
  - rewrite Hfind. reflexivity.
  - exists evs. rewrite Hfind. split; [exact Htr|exact Hin].
  - intros Hocp. rewrite (find_and_set_port_no_override E s Hocp), Hfind.
    repeat split.
Qed.

(** C3. With no environment override and no workspace match: when exactly
    one port of the State Store is alive, [find_port] returns it and
    [find_and_set_port] caches it; when none is alive, resolution raises a
    RuntimeError whose message says that no port was found; when more than
    one is alive, it raises a RuntimeError whose message is built from the
    list of all alive ports and shows each of them. *)
Theorem find_and_set_port_without_match (E : env) (s : state) :
  OCP_PORT E = None ->
  keys_parse (state_file s) ->
  (forall entry, In entry (state_file s) -> workspace_match E entry = false) ->
  (forall p,
      alive_keys E (state_file s) = [p] ->
      fst (find_port E s) = Return (PortStr p)
      /\ fst (find_and_set_port E s) = Return tt
      /\ CMD_PORT (snd (find_and_set_port E s)) = PortStr p
      /\ INIT_DONE (snd (find_and_set_port E s)) = true)
  /\ (alive_keys E (state_file s) = [] ->
      fst (find_and_set_port E s) = Raise (RuntimeError no_port_message)
      /\ occurs_in "No port found" no_port_message)
  /\ ((1 < List.length (alive_keys E (state_file s)))%nat ->
      fst (find_and_set_port E s)
      = Raise (RuntimeError (multiple_ports_message (alive_keys E (state_file s))))
      /\ forall p, In p (alive_keys E (state_file s)) ->
                   occurs_in p (multiple_ports_message (alive_keys E (state_file s)))).
Proof.
  intros Hocp Hkeys Hno.
  destruct (find_port_run E s Hkeys) as (s1 & evs & _ & _ & _ & _ & Hfind).
  rewrite (scan_result_no_match E (state_file s) None Hno) in Hfind.
  destruct (alive_ports_run E (state_file s) s1 Hkeys) as (s2 & Hports & _).
  unfold bind in Hfind. rewrite Hports in Hfind.
  rewrite (find_and_set_port_no_override E s Hocp), Hfind.
  split; [|split].
  - intros p Hp. rewrite Hp. repeat split; reflexivity.
  - intros Hp. rewrite Hp. split; [reflexivity|].
    exists ""%string. eexists. reflexivity.
  - intros Hlen. split.
    + destruct (alive_keys E (state_file s)) as [|a [|b l]]; simpl in Hlen; try lia.
      reflexivity.
    + intros p Hp. unfold multiple_ports_message.
      apply occurs_in_behind, occurs_in_behind, occurs_in_ahead.
      now apply occurs_in_join.
Qed.

(** ** Listening *)

Lemma dict_get_None {V : Type} (d : dict V) (k : string) :
  dict_get d k = None <-> ~ In k (dict_keys d).
Proof.
  induction d as [|[k' v'] d IH]; simpl.
  - tauto.
  - destruct (String.eqb_spec k' k) as [->|Hne].
    + split; [discriminate|]. intros Hn. exfalso. apply Hn. now left.
    + rewrite IH. split.
      * intros Hn [Heq|Hin]; [now apply Hne|now apply Hn].
      * intros Hn Hin. apply Hn. now right.
Qed.

Lemma dict_set_fresh {V : Type} (d : dict V) (k : string) (v : V) :
  ~ In k (dict_keys d) -> dict_set d k v = d ++ [(k, v)].
Proof.
  induction d as [|[k' v'] d IH]; simpl; intros Hn; [reflexivity|].
  destruct (String.eqb_spec k' k) as [->|Hne].
  - exfalso. apply Hn. now left.
  - rewrite IH; [reflexivity|]. intros Hin. apply Hn. now right.
Qed.

Lemma status_delta_from_filter (last_config items : dict json) :
  forall new_changes,
    NoDup (dict_keys new_changes ++ dict_keys items) ->
    status_delta_from last_config items new_changes
    = new_changes ++ filter (kept last_config) items.
Proof.
  induction items as [|[k v] items IH]; intros acc Hnd; simpl.
  - now rewrite app_nil_r.
  - unfold kept at 1. simpl.
    assert (Hfresh : ~ In k (dict_keys acc)).
    { simpl in Hnd. apply NoDup_remove_2 in Hnd. intros Hin. apply Hnd.
      apply in_or_app. now left. }
    assert (Hrest : NoDup (dict_keys acc ++ dict_keys items)).
    { simpl in Hnd. now apply NoDup_remove_1 in Hnd. }
    destruct (dict_contains last_config k && py_eq (dict_get_or_None last_config k) v);
      simpl.
    + now apply IH.
    + rewrite IH.
      * rewrite (dict_set_fresh acc k v Hfresh), <- app_assoc. reflexivity.
      * rewrite (dict_set_fresh acc k v Hfresh). unfold dict_keys in *.
        rewrite map_app, <- app_assoc. exact Hnd.
Qed.

Lemma status_delta_filter (last_config changes : dict json) :
  dict_wf changes ->
  status_delta last_config changes = filter (kept last_config) changes.
Proof.
  intros Hwf. unfold status_delta. now rewrite status_delta_from_filter.
Qed.

Lemma dict_get_filter {V : Type} (f : string * V -> bool) (d : dict V) (k : string) (v : V) :
  dict_wf d ->
  dict_get (filter f d) k = Some v <-> dict_get d k = Some v /\ f (k, v) = true.
Proof.
  unfold dict_wf.
  induction d as [|[k' v'] d IH]; simpl; intros Hnd.
  - split; [discriminate|intros [? _]; discriminate].
  - inversion Hnd as [|x l Hfresh Hnd']; subst.
    destruct (String.eqb_spec k' k) as [->|Hne].
    + destruct (f (k, v')) eqn:Hf; simpl.
      * rewrite String.eqb_refl. split.
        -- intros [= <-]. now split.
        -- now intros [Hv _].
      * split.
        -- intros Hget. exfalso.
           assert (Hnone : dict_get (filter f d) k = None).
           { apply dict_get_None. intros Hin. apply Hfresh.
             unfold dict_keys in *. apply in_map_iff in Hin as ([k0 v0] & <- & Hin).
             apply filter_In in Hin as [Hin _]. apply in_map_iff.
             now exists (k0, v0). }
           congruence.
        -- intros [[= <-] Hf']. congruence.
    + destruct (f (k', v')); simpl.
      * destruct (String.eqb_spec k' k) as [Heq|_]; [contradiction|]. now apply IH.
      * now apply IH.
Qed.

Lemma kept_spec (last_config : dict json) (k : string) (v : json) :
  kept last_config (k, v) = true
  <-> dict_get last_config k = None
      \/ exists old, dict_get last_config k = Some old /\ py_eq old v = false.
Proof.
  unfold kept, dict_contains, dict_get_or_None. simpl.
  destruct (dict_get last_config k) as [old|]; simpl.
  - rewrite negb_true_iff. split.
    + intros Hne. right. now exists old.
    + intros [Hn | (old' & [= <-] & Hne)]; [discriminate|assumption].
  - split; [now left|reflexivity].
Qed.

(** The delta of a status message. *)
Lemma status_delta_spec (last_config changes : dict json) (k : string) (v : json) :
  dict_wf changes ->
  dict_get (status_delta last_config changes) k = Some v
  <-> dict_get changes k = Some v
      /\ (dict_get last_config k = None
          \/ exists old, dict_get last_config k = Some old /\ py_eq old v = false).
Proof.
  intros Hwf. rewrite (status_delta_filter _ _ Hwf), (dict_get_filter _ _ _ _ Hwf).
  now rewrite kept_spec.
Qed.

Lemma listen_turn_status (E : env) (callback : json -> MessageType -> outcome unit)
  (last_config : dict json) (text : string) (fields changes : dict json) (s : state) :
  json_loads E text = Return (JDict fields) ->
  (forall model, dict_get fields "model" = Some model -> callback model DATA = Return tt) ->
  dict_get fields "command" = Some (JStr "status") ->
  dict_get fields "text" = Some (JDict changes) ->
  callback (JDict (status_delta last_config changes)) UPDATES = Return tt ->
  listen_turn E callback last_config (Return (Some text)) s
  = (Return (Continue changes),
     after s ([EvRecv] ++ model_calls fields
              ++ [EvCallback (JDict (status_delta last_config changes)) UPDATES])).
Proof.
  intros Hl Hmodel Hcmd Htext Hcb.
  unfold listen_turn, try_except, bind, lift, invoke, ret, emit, dict_items,
    dict_getitem, dict_contains, dict_get_or_None, model_calls.
  run. rewrite Hl. run. rewrite Hcmd, Htext.
  change (py_eq (JStr "status") (JStr "status")) with true.
  destruct (dict_get fields "model") as [model|] eqn:Hm; run.
  - rewrite (Hmodel model eq_refl). run. rewrite Hcb. settle.
  - rewrite Hcb. settle.
Qed.

Lemma listen_turn_model_and_status (E : env)
  (callback : json -> MessageType -> outcome unit)
  (last_config : dict json) (text : string) (fields changes : dict json)
  (model : json) (s : state) :
  json_loads E text = Return (JDict fields) ->
  dict_get fields "model" = Some model ->
  dict_get fields "command" = Some (JStr "status") ->
  dict_get fields "text" = Some (JDict changes) ->
  callback model DATA = Return tt ->
  callbacks (trace (snd (listen_turn E callback last_config (Return (Some text)) s)))
  = callbacks (trace s)
    ++ [(model, DATA); (JDict (status_delta last_config changes), UPDATES)].
Proof.
  intros Hl Hm Hcmd Htext Hcb.
  unfold listen_turn, try_except, bind, lift, invoke, ret, emit, print, dict_items,
    dict_getitem, dict_contains, dict_get_or_None.
  run. rewrite Hl. run. rewrite Hcmd, Htext, Hm.
  change (py_eq (JStr "status") (JStr "status")) with true.
  run. rewrite Hcb. run.
  destruct (callback (JDict (status_delta last_config changes)) UPDATES) as [[]|e]; run.
  - unfold callbacks. rewrite !flat_map_app. simpl. rewrite <- !app_assoc. reflexivity.
  - destruct (isinstance_Exception e); run;
      unfold callbacks; rewrite !flat_map_app; simpl; rewrite <- ?app_assoc;
      simpl; rewrite ?app_nil_r; reflexivity.
Qed.

Lemma listen_turn_listening (E : env) (callback : json -> MessageType -> outcome unit)
  (last_config : dict json) (received : outcome (option string)) :
  only_events listening (listen_turn E callback last_config received).
Proof.
  unfold listen_turn, invoke, print.
  apply only_try_except.
  - apply only_bind; [now apply only_emit|intros _].
    apply only_bind; [apply only_lift|intros [text|]]; [|apply only_ret].
    apply only_bind; [apply only_lift|intros message].
    apply only_bind; [apply only_lift|intros fields].
    apply only_bind.
    + destruct (dict_contains fields "model"); [|apply only_ret].
      apply only_bind; [apply only_lift|intros model].
      apply only_bind; [now apply only_emit|intros _]. apply only_lift.
    + intros _. destruct (py_eq _ _); [|apply only_ret].
      apply only_bind; [apply only_lift|intros changes].
      apply only_bind; [apply only_lift|intros items].
      apply only_bind; [|intros _; apply only_ret].
      apply only_bind; [now apply only_emit|intros _]. apply only_lift.
  - intros e. apply only_bind; [now apply only_emit|intros _]. apply only_ret.
Qed.

Lemma listen_loop_listening (E : env) (callback : json -> MessageType -> outcome unit)
  (inbound : list (outcome (option string))) :
  forall last_config, only_events listening (listen_loop E callback inbound last_config).
Proof.
  induction inbound as [|received rest IH]; intros last_config; simpl.
  - apply only_ret.
  - apply only_bind; [apply listen_turn_listening|].
    intros [snapshot|]; [apply IH|apply only_ret].
Qed.

Lemma count_connects_listening (evs : list event) :
  forallb listening evs = true -> count_connects evs = 0%nat.
Proof.
  unfold count_connects.
  induction evs as [|e evs IH]; simpl; [reflexivity|].
  intros Hall. apply andb_prop in Hall as [He Hall].
  destruct e; simpl in *; try discriminate; now apply IH.
Qed.

Lemma only_leaving_with (E : env) (P : event -> bool) (block : M listen_end) :
  P EvClose = true -> only_events P block -> only_events P (leaving_with E block).
Proof.
  intros Hclose Hblock s. unfold leaving_with.
  destruct (Hblock s) as (evs & Htr & Hall & Hc & Hi).
  destruct (block s) as [[[snapshot|]|e] s1]; simpl in *.
  - exists evs. repeat split; assumption.
  - unfold bind, emit, lift, ret. simpl.
    destruct (ws_close E); simpl; exists (evs ++ [EvClose]);
      rewrite Htr, <- !app_assoc, forallb_app, Hall; simpl; rewrite Hclose;
      repeat split; assumption.
  - unfold bind, emit, lift, raise. simpl.
    destruct (ws_close E); simpl; exists (evs ++ [EvClose]);
      rewrite Htr, <- !app_assoc, forallb_app, Hall; simpl; rewrite Hclose;
      repeat split; assumption.
Qed.

Lemma _listen_connected (E : env) (callback : json -> MessageType -> outcome unit)
  (inbound : list (outcome (option string))) (s : state) :
  ws_connect E (url_of (CMD_PORT s)) = Return tt ->
  _listen E callback inbound s
  = leaving_with E
      (lift (ws_send E register_frame) ;; listen_loop E callback inbound [])%py
      (after s [EvConnect (url_of (CMD_PORT s)) (Some max_size); EvSend register_frame]).
Proof.
  intros Hc.
  unfold _listen, leaving_with, bind, read_CMD_PORT, lift, emit, after. run.
  rewrite Hc. run. rewrite <- !app_assoc. reflexivity.
Qed.

Lemma _listen_run (E : env) (callback : json -> MessageType -> outcome unit)
  (inbound : list (outcome (option string))) (s : state) :
  ws_connect E (url_of (CMD_PORT s)) = Return tt ->
  exists rest,
    trace (snd (_listen E callback inbound s))
    = trace s ++ [EvConnect (url_of (CMD_PORT s)) (Some max_size); EvSend register_frame]
              ++ rest
    /\ forallb listening rest = true
    /\ same_globals s (snd (_listen E callback inbound s)).
Proof.
  intros Hc. rewrite (_listen_connected E callback inbound s Hc).
  assert (Hblock : only_events listening
            (leaving_with E
               (lift (ws_send E register_frame) ;; listen_loop E callback inbound [])%py)).
  { apply only_leaving_with; [reflexivity|].
    apply only_bind; [apply only_lift|intros _]. apply listen_loop_listening. }
  destruct (Hblock (after s [EvConnect (url_of (CMD_PORT s)) (Some max_size);
                             EvSend register_frame]))
    as (rest & Htr & Hall & Hg).
  exists rest. rewrite Htr. simpl. rewrite <- app_assoc. repeat split; trivial; apply Hg.
Qed.

(** C4. A status message (its [command] is "status" and its [text] is a
    mapping) whose callbacks return: the delta holds exactly the items of the
    new snapshot whose key is absent from the previous snapshot or whose
    value differs from the previous one; the callback is called with the
    delta and [UPDATES], whatever the delta holds; the turn ends with the
    whole new snapshot as the stored one, and the next turn starts from it.
    From a:1, b:2 and a:1, b:3, c:4 the delta is b:3, c:4. *)
Theorem status_message_delta (E : env) (callback : json -> MessageType -> outcome unit)
  (last_config : dict json) (text : string) (fields changes : dict json)
  (rest : list (outcome (option string))) (s : state) :
  json_loads E text = Return (JDict fields) ->
  dict_get fields "command" = Some (JStr "status") ->
  dict_get fields "text" = Some (JDict changes) ->
  dict_wf changes ->
  (forall model, dict_get fields "model" = Some model -> callback model DATA = Return tt) ->
  callback (JDict (status_delta last_config changes)) UPDATES = Return tt ->
  (forall k v,
      dict_get (status_delta last_config changes) k = Some v
      <-> dict_get changes k = Some v
          /\ (dict_get last_config k = None
              \/ exists old, dict_get last_config k = Some old /\ py_eq old v = false))
  /\ listen_turn E callback last_config (Return (Some text)) s
     = (Return (Continue changes),
        after s ([EvRecv] ++ model_calls fields
                 ++ [EvCallback (JDict (status_delta last_config changes)) UPDATES]))
  /\ listen_loop E callback (Return (Some text) :: rest) last_config s
     = listen_loop E callback rest changes
         (after s ([EvRecv] ++ model_calls fields
                   ++ [EvCallback (JDict (status_delta last_config changes)) UPDATES]))
  /\ status_delta [("a", JInt 1); ("b", JInt 2)]
                  [("a", JInt 1); ("b", JInt 3); ("c", JInt 4)]
     = [("b", JInt 3); ("c", JInt 4)].
Proof.
  intros Hl Hcmd Htext Hwf Hmodel Hcb.
  pose proof (listen_turn_status E callback last_config text fields changes s
                Hl Hmodel Hcmd Htext Hcb) as Hturn.
  split; [|split; [|split]].
  - intros k v. now apply status_delta_spec.
  - exact Hturn.
  - simpl listen_loop. unfold bind. rewrite Hturn. reflexivity.
  - reflexivity.
Qed.

(** C9. The two branches of the dispatcher are not exclusive.  A message
    that has a [model] key and whose [command] is "status" (with its [text]
    mapping) makes the callback be called twice in this one turn: first with
    the model and [DATA], then with the status delta and [UPDATES]. *)
Theorem model_and_status_message_calls_twice (E : env)
  (callback : json -> MessageType -> outcome unit)
  (last_config : dict json) (text : string) (fields changes : dict json)
  (model : json) (s : state) :
  json_loads E text = Return (JDict fields) ->
  dict_get fields "model" = Some model ->
  dict_get fields "command" = Some (JStr "status") ->
  dict_get fields "text" = Some (JDict changes) ->
  callback model DATA = Return tt ->
  callbacks (trace (snd (listen_turn E callback last_config (Return (Some text)) s)))
  = callbacks (trace s)
    ++ [(model, DATA); (JDict (status_delta last_config changes), UPDATES)].
Proof.
  intros Hl Hm Hcmd Htext Hcb.
  now apply listen_turn_model_and_status with (fields := fields).
Qed.

(** X1. Whatever the initialised flag says, [_listen] connects to the port
    the module holds: it resolves nothing, probes nothing, opens no second
    connection, and leaves the port and the flag as they were. *)
Lemma _listen_uses_held_port (E : env) (callback : json -> MessageType -> outcome unit)
  (inbound : list (outcome (option string))) (s : state) :
  exists rest,
    trace (snd (_listen E callback inbound s))
    = trace s ++ EvConnect (url_of (CMD_PORT s)) (Some max_size) :: rest
    /\ forallb listening rest = true
    /\ same_globals s (snd (_listen E callback inbound s)).
Proof.
  destruct (ws_connect E (url_of (CMD_PORT s))) as [[]|e] eqn:Hc.
  - destruct (_listen_run E callback inbound s Hc) as (rest & Htr & Hall & Hg).
    exists (EvSend register_frame :: rest). rewrite Htr. repeat split; trivial; apply Hg.
  - exists []. unfold _listen, bind, read_CMD_PORT, lift, emit. run.
    rewrite Hc. repeat split.
Qed.

(** C6, as the code has it.  When the connection opens, the listener's
    first two events are: one connect, with a maximum frame size of 2^28
    bytes, above the library's default of 2^20, and then at once the
    registration frame, which is the tag of [LISTEN] followed by the
    literal text register, written as it stands.  No other connection is
    opened afterwards. *)
Theorem listener_registers (E : env) (callback : json -> MessageType -> outcome unit)
  (inbound : list (outcome (option string))) (s : state) :
  ws_connect E (url_of (CMD_PORT s)) = Return tt ->
  (exists rest,
      trace (snd (_listen E callback inbound s))
      = trace s ++ [EvConnect (url_of (CMD_PORT s)) (Some max_size);
                    EvSend register_frame] ++ rest
      /\ count_connects rest = 0%nat)
  /\ register_frame = (kind_prefix LISTEN ++ "register")%string
  /\ (websockets_default_max_size < max_size)%Z.
Proof.
  intros Hc. split; [|split; reflexivity].
  destruct (_listen_run E callback inbound s Hc) as (rest & Htr & Hall & _).
  exists rest. split; [exact Htr|now apply count_connects_listening].
Qed.

(** ** The cached port *)

(** Once the module is initialised, [get_port] gives the port it holds and
    does nothing else. *)
Lemma get_port_cached (E : env) (s : state) :
  INIT_DONE s = true -> get_port E s = (Return (CMD_PORT s), s).
Proof.
  intros Hinit. unfold get_port, bind, read_INIT_DONE, read_CMD_PORT, ret.
  rewrite Hinit. reflexivity.
Qed.

(** X2. After [set_port] the port is held: [get_port] gives it back and
    does nothing else, and a send without a port knows it. *)
Lemma set_port_then_get_port (E : env) (port : pyport) (s : state) :
  get_port E (snd (set_port port s)) = (Return port, snd (set_port port s))
  /\ port_known (snd (set_port port s)) None port.
Proof.
  split; [reflexivity|]. right. repeat split.
Qed.

(** X3. A positive OCP_PORT is taken as the port and cached, with one
    printed line: the State Store is not read and no port is probed. *)
Theorem find_and_set_port_override (E : env) (s : state) (v : string) (n : Z) :
  OCP_PORT E = Some v ->
  py_int v = Return n ->
  (0 < n)%Z ->
  find_and_set_port E s
  = (Return tt,
     {| CMD_PORT := PortInt n; INIT_DONE := true; state_file := state_file s;
        trace := trace s ++ [EvPrint ("Using predefined port " ++ py_str_int n
                                      ++ " taken from environment variable OCP_PORT")%string]
     |}).
Proof.
  intros Hocp Hv Hpos. unfold find_and_set_port, bind, lift. rewrite Hocp, Hv.
  apply Z.ltb_lt in Hpos. run. rewrite Hpos. reflexivity.
Qed.

(** X4. A message that has no [model] key and whose [command] is not
    "status" calls no callback: the turn only receives it and goes on with
    the snapshot it had. *)
Theorem unrecognized_message_is_ignored (E : env)
  (callback : json -> MessageType -> outcome unit)
  (last_config : dict json) (text : string) (fields : dict json) (s : state) :
  json_loads E text = Return (JDict fields) ->
  dict_get fields "model" = None ->
  py_eq (dict_get_or_None fields "command") (JStr "status") = false ->
  listen_turn E callback last_config (Return (Some text)) s
  = (Return (Continue last_config), after s [EvRecv]).
Proof.
  intros Hl Hm Hcmd.
  unfold listen_turn, try_except, bind, lift, invoke, ret, emit, dict_items,
    dict_getitem, dict_contains.
  run. rewrite Hl. run. rewrite Hm, Hcmd. settle.
Qed.

(** X5. An [Exception] raised by [recv] ends the whole loop: it is printed,
    the frames that would follow are not read, and [_listen] is over. *)
Theorem receive_error_stops_listening (E : env)
  (callback : json -> MessageType -> outcome unit)
  (last_config : dict json) (e : exn) (rest : list (outcome (option string)))
  (s : state) :
  isinstance_Exception e = true ->
  listen_loop E callback (Raise e :: rest) last_config s
  = (Return Stopped, after s [EvRecv; EvPrint (str_exn e)]).
Proof.
  intros Hex. simpl listen_loop.
  unfold listen_turn, try_except, bind, lift, ret, emit, print. run.
  rewrite Hex. settle.
Qed.

(** ** The JSON codec *)

Section CodecRoundTrip.
Import Codec.
Local Open Scope string_scope.

Lemma length_app (a b : string) :
  String.length (a ++ b) = (String.length a + String.length b)%nat.
Proof. induction a as [|c a IH]; simpl; [reflexivity|now rewrite IH]. Qed.

Lemma length_sep (a sep b : string) :
  String.length (a ++ sep ++ b)
  = (String.length a + String.length sep + String.length b)%nat.
Proof. rewrite !length_app. lia. Qed.

(** *** Strings *)

Lemma parse_pieces_escape_char (c : ascii) (t : string) :
  parse_pieces (escape_char c ++ t)
  = match parse_pieces t with
    | Some (ps, rest) => Some (piece_of c :: ps, rest)
    | None => None
    end.
Proof.
  destruct c as [[|] [|] [|] [|] [|] [|] [|] [|]]; reflexivity.
Qed.

Lemma text_of_pieces_piece_of (c : ascii) (ps : list piece) :
  text_of_pieces (piece_of c :: ps) = String c (text_of_pieces ps).
Proof.
  destruct c as [[|] [|] [|] [|] [|] [|] [|] [|]];
    try reflexivity; destruct ps as [|[c'|lo] ps']; reflexivity.
Qed.

Lemma parse_pieces_escape (s rest : string) :
  exists ps,
    parse_pieces (escape s ++ String double_quote rest) = Some (ps, rest)
    /\ text_of_pieces ps = s.
Proof.
  induction s as [|c s [ps [Hp Ht]]].
  - exists []. split; reflexivity.
  - exists (piece_of c :: ps). split.
    + simpl escape. rewrite append_assoc, parse_pieces_escape_char, Hp. reflexivity.
    + rewrite text_of_pieces_piece_of, Ht. reflexivity.
Qed.


(** *** Numbers *)

Lemma span_number_stops (rest : string) :
  stops rest = true -> span_number rest = ("", rest).
Proof.
  destruct rest as [|c rest]; simpl; [reflexivity|].
  destruct (number_char c); [discriminate|reflexivity].
Qed.

Lemma span_number_uint (u : Decimal.uint) (rest : string) :
  stops rest = true ->
  span_number (NilEmpty.string_of_uint u ++ rest) = (NilEmpty.string_of_uint u, rest).
Proof.
  intros Hs. induction u; simpl; rewrite ?IHu; try reflexivity.
  exact (span_number_stops rest Hs).
Qed.

Lemma span_number_int (z : Z) (rest : string) :
  stops rest = true ->
  span_number (py_str_int z ++ rest) = (py_str_int z, rest).
Proof.
  intros Hs. unfold py_str_int, NilZero.string_of_int, NilZero.string_of_uint.
  destruct (Z.to_int z) as [u|u]; destruct u; simpl;
    rewrite ?(span_number_uint _ _ Hs), ?(span_number_stops _ Hs); reflexivity.
Qed.

Lemma no_leading_zero_unorm (u : Decimal.uint) :
  no_leading_zero (Decimal.unorm u) = true.
Proof. induction u; simpl; trivial. Qed.

Lemma no_leading_zero_to_uint (p : positive) : no_leading_zero (Pos.to_uint p) = true.
Proof.
  replace (Pos.to_uint p) with (Decimal.unorm (Pos.to_uint p)).
  - apply no_leading_zero_unorm.
  - rewrite <- DecimalPos.Unsigned.to_of, DecimalPos.Unsigned.of_to. reflexivity.
Qed.

Lemma int_literal_str (z : Z) : int_literal (py_str_int z) = Some z.
Proof.
  unfold int_literal, py_str_int.
  rewrite NilZero.isi.
  - rewrite DecimalZ.of_to.
    destruct z as [|p|p]; simpl; rewrite ?no_leading_zero_to_uint; reflexivity.
  - destruct z as [|p|p]; simpl; try discriminate;
      intros [= Hp]; exact (DecimalPos.Unsigned.to_uint_nonnil p Hp).
  - destruct z as [|p|p]; simpl; try discriminate;
      intros [= Hp]; exact (DecimalPos.Unsigned.to_uint_nonnil p Hp).
Qed.

Lemma parse_number_int (z : Z) (rest : string) :
  stops rest = true ->
  parse_number (py_str_int z ++ rest) = Return (JInt z, rest).
Proof.
  intros Hs. unfold parse_number.
  rewrite (span_number_int z rest Hs), int_literal_str. reflexivity.
Qed.

Lemma string_of_uint_head (u : Decimal.uint) :
  u <> Decimal.Nil ->
  exists c t, NilEmpty.string_of_uint u = String c t /\ is_digit c = true.
Proof.
  destruct u; intros Hn; try (eexists _, _; split; reflexivity).
  now destruct Hn.
Qed.

Lemma py_str_int_head (z : Z) :
  exists c t,
    py_str_int z = String c t /\ (is_digit c || Ascii.eqb c "-"%char) = true.
Proof.
  unfold py_str_int.
  destruct z as [|p|p]; simpl.
  - eexists _, _; split; reflexivity.
  - destruct (string_of_uint_head (Pos.to_uint p) (DecimalPos.Unsigned.to_uint_nonnil p))
      as [c [t [He Hd]]].
    exists c, t. unfold NilZero.string_of_uint.
    destruct (Pos.to_uint p) eqn:Hu; try (split; [exact He|now rewrite Hd]).
    discriminate.
  - eexists _, _; split; reflexivity.
Qed.

Lemma number_head (c : ascii) :
  (is_digit c || Ascii.eqb c "-"%char) = true ->
  is_ws c = false /\ Ascii.eqb c double_quote = false /\ Ascii.eqb c "["%char = false
  /\ Ascii.eqb c "{"%char = false /\ Ascii.eqb "]"%char c = false.
Proof.
  destruct c as [[|] [|] [|] [|] [|] [|] [|] [|]];
    intros Hc; try discriminate Hc; repeat split.
Qed.

Lemma parse_value_int (fuel : nat) (z : Z) (rest : string) :
  stops rest = true ->
  parse_value (S fuel) (py_str_int z ++ rest) = Return (JInt z, rest).
Proof.
  intros Hs.
  destruct (py_str_int_head z) as [c [t [He Hc]]].
  destruct (number_head c Hc) as [Hw [Hq [Hl [Hd _]]]].
  rewrite <- (parse_number_int z rest Hs).
  rewrite He. simpl. rewrite Hw, Hq, Hl, Hd, Hc. reflexivity.
Qed.


(** *** Values *)

Lemma json_text_head (v : json) :
  exists c t,
    json_text v = String c t /\ is_ws c = false /\ Ascii.eqb "]"%char c = false.
Proof.
  destruct v as [|[|]|z|s|l|d]; try (eexists _, _; repeat split; reflexivity).
  destruct (py_str_int_head z) as [c [t [He Hc]]].
  destruct (number_head c Hc) as [Hw [_ [_ [_ Hb]]]].
  exists c, t. repeat split; assumption.
Qed.

Lemma join_cons (sep p q : string) (ps : list string) :
  join sep (p :: q :: ps) = p ++ sep ++ join sep (q :: ps).
Proof. reflexivity. Qed.

Lemma parse_elements_step (fuel : nat) (s : string) (v : json) (r : string) :
  parse_value fuel s = Return (v, r) ->
  parse_elements (S fuel) s
  = match strip_prefix "," (skip_ws r) with
    | Some r' =>
        match parse_elements fuel r' with
        | Return (l, r2) => Return (v :: l, r2)
        | Raise e => Raise e
        end
    | None =>
        match strip_prefix "]" (skip_ws r) with
        | Some r' => Return ([v], r')
        | None => Raise (decode_error "Expecting ',' delimiter")
        end
    end.
Proof. intros Hv. simpl. rewrite Hv. reflexivity. Qed.

Lemma parse_elements_join (l : list json) :
  Forall reads_back l ->
  l <> [] ->
  forall (fuel : nat) (rest : string),
    (String.length (join "," (map json_text l)) + 1 <= fuel)%nat ->
    parse_elements fuel (join "," (map json_text l) ++ String "]" rest)
    = Return (l, rest).
Proof.
  induction l as [|x l IH]; intros HF Hne fuel rest Hfuel; [contradiction|].
  inversion HF as [|? ? Hx Hl]; subst.
  destruct fuel as [|fuel]; [lia|].
  destruct l as [|y l].
  - simpl join in *.
    rewrite (parse_elements_step fuel _ x (String "]" rest)).
    + reflexivity.
    + apply Hx; [reflexivity|lia].
  - simpl map in *. rewrite join_cons in *.
    rewrite length_sep in Hfuel. change (String.length ",") with 1%nat in Hfuel.
    rewrite append_assoc.
    rewrite (parse_elements_step fuel _ x ("," ++ join "," (json_text y :: map json_text l)
                                              ++ String "]" rest)).
    + simpl. rewrite (IH Hl); [reflexivity|discriminate|simpl map; lia].
    + apply Hx; [reflexivity|lia].
Qed.


Lemma text_of_str_app (k tail : string) :
  text_of_str k ++ tail = String double_quote (escape k ++ String double_quote tail).
Proof. unfold text_of_str. simpl. rewrite append_assoc. reflexivity. Qed.

Lemma parse_members_step (fuel : nat) (k : string) (v : json) (tail : string) :
  parse_value fuel (json_text v ++ tail) = Return (v, tail) ->
  parse_members (S fuel) (text_of_str k ++ ":" ++ json_text v ++ tail)
  = match strip_prefix "," (skip_ws tail) with
    | Some r =>
        match parse_members fuel r with
        | Return (items, r') => Return ((k, v) :: items, r')
        | Raise e => Raise e
        end
    | None =>
        match strip_prefix "}" (skip_ws tail) with
        | Some r => Return ([(k, v)], r)
        | None => Raise (decode_error "Expecting ',' delimiter")
        end
    end.
Proof.
  intros Hv. rewrite text_of_str_app.
  destruct (parse_pieces_escape k (":" ++ json_text v ++ tail)) as [ps [Hp Ht]].
  change (parse_members (S fuel)
            (String double_quote (escape k ++ String double_quote (":" ++ json_text v ++ tail))))
    with (match parse_pieces (escape k ++ String double_quote (":" ++ json_text v ++ tail)) with
          | None => Raise (decode_error "Invalid string")
          | Some (ps, r1) =>
              match strip_prefix ":" (skip_ws r1) with
              | None => Raise (decode_error "Expecting ':' delimiter")
              | Some r2 =>
                  match parse_value fuel r2 with
                  | Raise e => Raise e
                  | Return (v, r3) =>
                      match strip_prefix "," (skip_ws r3) with
                      | Some r4 =>
                          match parse_members fuel r4 with
                          | Return (items, r5) =>
                              Return ((text_of_pieces ps, v) :: items, r5)
                          | Raise e => Raise e
                          end
                      | None =>
                          match strip_prefix "}" (skip_ws r3) with
                          | Some r4 => Return ([(text_of_pieces ps, v)], r4)
                          | None => Raise (decode_error "Expecting ',' delimiter")
                          end
                      end
                  end
              end
          end).
  rewrite Hp.
  change (strip_prefix ":" (skip_ws (":" ++ json_text v ++ tail)))
    with (Some (json_text v ++ tail)).
  cbv beta iota. rewrite Hv, Ht. reflexivity.
Qed.

Lemma parse_members_join (d : list (string * json)) :
  Forall (fun kv => reads_back (snd kv)) d ->
  d <> [] ->
  forall (fuel : nat) (rest : string),
    (String.length
       (join "," (map (fun kv => text_of_str (fst kv) ++ ":" ++ json_text (snd kv)) d))
     + 1 <= fuel)%nat ->
    parse_members fuel
      (join "," (map (fun kv => text_of_str (fst kv) ++ ":" ++ json_text (snd kv)) d)
       ++ String "}" rest)
    = Return (d, rest).
Proof.
  induction d as [|[k x] d IH]; intros HF Hne fuel rest Hfuel; [contradiction|].
  inversion HF as [|? ? Hx Hd]; subst. simpl in Hx.
  destruct fuel as [|fuel]; [lia|].
  destruct d as [|[k' y] d].
  - cbn [map join fst snd] in *.
    rewrite !length_sep in Hfuel.
    rewrite !append_assoc.
    rewrite (parse_members_step fuel k x (String "}" rest)).
    + reflexivity.
    + apply Hx; [reflexivity|lia].
  - rewrite !map_cons in *. rewrite join_cons in *. cbn [fst snd] in *.
    rewrite !length_sep in Hfuel. change (String.length ",") with 1%nat in Hfuel.
    rewrite !append_assoc.
    rewrite (parse_members_step fuel k x).
    + match goal with
      | |- context [strip_prefix "," (skip_ws ("," ++ ?t))] =>
          change (strip_prefix "," (skip_ws ("," ++ t))) with (Some t)
      end.
      cbv beta iota. rewrite (IH Hd); [reflexivity|discriminate|lia].
    + apply Hx; [reflexivity|lia].
Qed.

Lemma fold_dict_set (d acc : list (string * json)) :
  NoDup (map fst (acc ++ d)%list) ->
  fold_left (fun m kv => dict_set m (fst kv) (snd kv)) d acc = (acc ++ d)%list.
Proof.
  revert acc. induction d as [|[k v] d IH]; intros acc Hn; simpl.
  - now rewrite app_nil_r.
  - rewrite dict_set_fresh.
    + rewrite IH; rewrite <- app_assoc; [reflexivity|exact Hn].
    + rewrite map_app in Hn. simpl in Hn.
      apply NoDup_remove_2 in Hn. intros Hin. apply Hn.
      apply in_or_app. now left.
Qed.

Lemma dict_of_items_distinct (d : list (string * json)) :
  NoDup (map fst d) -> dict_of_items d = d.
Proof. intros Hn. exact (fold_dict_set d [] Hn). Qed.


Lemma skip_ws_head (c : ascii) (t : string) :
  is_ws c = false -> skip_ws (String c t) = String c t.
Proof. intros Hw. simpl. now rewrite Hw. Qed.

Lemma join_head (p : string) (ps : list string) (tail : string) :
  exists t, join "," (p :: ps) ++ tail = p ++ t.
Proof.
  destruct ps as [|q ps].
  - now exists tail.
  - rewrite join_cons, append_assoc. now eexists.
Qed.

Lemma not_closing (x : json) (l : list json) (tail : string) :
  strip_prefix "]" (skip_ws (join "," (map json_text (x :: l)) ++ tail)) = None.
Proof.
  destruct (json_text_head x) as [c [t [He [Hw Hb]]]].
  rewrite map_cons.
  destruct (join_head (json_text x) (map json_text l) tail) as [t' Ht].
  rewrite Ht, He.
  change (String c t ++ t') with (String c (t ++ t')).
  rewrite (skip_ws_head c _ Hw).
  change (strip_prefix "]" (String c (t ++ t')))
    with (if Ascii.eqb "]"%char c then Some (t ++ t') else None).
  now rewrite Hb.
Qed.

Lemma py_str_int_length (z : Z) : (1 <= String.length (py_str_int z))%nat.
Proof.
  destruct (py_str_int_head z) as [c [t [He _]]]. rewrite He. simpl. lia.
Qed.

Lemma Forall_reads_back (l : list json) :
  Forall (fun v => json_wf v -> reads_back v) l -> Forall json_wf l ->
  Forall reads_back l.
Proof.
  intros HP Hwf. induction HP as [|x l Hx _ IH]; constructor.
  - apply Hx. now inversion Hwf.
  - apply IH. now inversion Hwf.
Qed.

Lemma Forall_reads_back_values (d : list (string * json)) :
  Forall (fun kv => json_wf (snd kv) -> reads_back (snd kv)) d ->
  Forall (fun kv => json_wf (snd kv)) d ->
  Forall (fun kv => reads_back (snd kv)) d.
Proof.
  intros HP Hwf. induction HP as [|x l Hx _ IH]; constructor.
  - apply Hx. now inversion Hwf.
  - apply IH. now inversion Hwf.
Qed.

(** The reader takes back what the writer wrote. *)
Lemma json_text_reads_back (v : json) : json_wf v -> reads_back v.
Proof.
  induction v as [|b|z|s|l IHl|d IHd] using json_nested_ind;
    intros Hwf fuel rest Hs Hfuel.
  - destruct fuel as [|fuel]; [simpl in Hfuel; lia|]. reflexivity.
  - destruct fuel as [|fuel]; [destruct b; simpl in Hfuel; lia|].
    destruct b; reflexivity.
  - destruct fuel as [|fuel].
    + pose proof (py_str_int_length z) as Hl. simpl json_text in Hfuel. lia.
    + exact (parse_value_int fuel z rest Hs).
  - destruct fuel as [|fuel]; [simpl in Hfuel; lia|].
    simpl json_text. rewrite text_of_str_app.
    destruct (parse_pieces_escape s rest) as [ps [Hp Ht]].
    change (parse_value (S fuel) (String double_quote (escape s ++ String double_quote rest)))
      with (match parse_pieces (escape s ++ String double_quote rest) with
            | Some (ps, rest') => Return (JStr (text_of_pieces ps), rest')
            | None => Raise (decode_error "Invalid string")
            end).
    rewrite Hp, Ht. reflexivity.
  - destruct fuel as [|fuel]; [simpl in Hfuel; lia|].
    assert (Hl : Forall reads_back l).
    { apply Forall_reads_back; [exact IHl|]. now inversion Hwf. }
    destruct l as [|x l]; [reflexivity|].
    change (json_text (JList (x :: l)))
      with ("[" ++ join "," (map json_text (x :: l)) ++ "]") in *.
    rewrite length_sep in Hfuel.
    change (String.length "[") with 1%nat in Hfuel.
    change (String.length "]") with 1%nat in Hfuel.
    change (("[" ++ join "," (map json_text (x :: l)) ++ "]") ++ rest)
      with (String "["%char ((join "," (map json_text (x :: l)) ++ "]") ++ rest)).
    rewrite append_assoc.
    change (parse_value (S fuel)
              (String "["%char (join "," (map json_text (x :: l)) ++ "]" ++ rest)))
      with (match strip_prefix "]"
                    (skip_ws (join "," (map json_text (x :: l)) ++ "]" ++ rest)) with
            | Some rest' => Return (JList [], rest')
            | None =>
                match parse_elements fuel
                        (join "," (map json_text (x :: l)) ++ "]" ++ rest) with
                | Return (l, rest') => Return (JList l, rest')
                | Raise e => Raise e
                end
            end).
    rewrite not_closing.
    change ("]" ++ rest) with (String "]"%char rest).
    rewrite (parse_elements_join (x :: l) Hl); [reflexivity|discriminate|lia].
  - destruct fuel as [|fuel]; [simpl in Hfuel; lia|].
    inversion Hwf as [| | | | |d' Hnd Hvals]; subst.
    assert (Hd : Forall (fun kv => reads_back (snd kv)) d).
    { apply Forall_reads_back_values; assumption. }
    destruct d as [|[k x] d]; [reflexivity|].
    change (json_text (JDict ((k, x) :: d)))
      with ("{" ++ join "," (map (fun kv => text_of_str (fst kv) ++ ":" ++ json_text (snd kv))
                               ((k, x) :: d)) ++ "}") in *.
    rewrite length_sep in Hfuel.
    change (String.length "{") with 1%nat in Hfuel.
    change (String.length "}") with 1%nat in Hfuel.
    set (body := join "," (map (fun kv => text_of_str (fst kv) ++ ":" ++ json_text (snd kv))
                             ((k, x) :: d))) in *.
    change (("{" ++ body ++ "}") ++ rest) with (String "{"%char ((body ++ "}") ++ rest)).
    rewrite append_assoc.
    change ("}" ++ rest) with (String "}"%char rest).
    assert (Hopen : strip_prefix "}" (skip_ws (body ++ String "}"%char rest)) = None).
    { unfold body. rewrite map_cons.
      destruct (join_head (text_of_str (fst (k, x)) ++ ":" ++ json_text (snd (k, x)))
                  (map (fun kv => text_of_str (fst kv) ++ ":" ++ json_text (snd kv)) d)
                  (String "}"%char rest)) as [t' Ht].
      rewrite Ht, append_assoc, text_of_str_app. reflexivity. }
    change (parse_value (S fuel) (String "{"%char (body ++ String "}"%char rest)))
      with (match strip_prefix "}" (skip_ws (body ++ String "}"%char rest)) with
            | Some rest' => Return (JDict [], rest')
            | None =>
                match parse_members fuel (body ++ String "}"%char rest) with
                | Return (items, rest') => Return (JDict (dict_of_items items), rest')
                | Raise e => Raise e
                end
            end).
    rewrite Hopen. unfold body.
    rewrite (parse_members_join ((k, x) :: d) Hd); [|discriminate|fold body; lia].
    rewrite (dict_of_items_distinct _ Hnd). reflexivity.
Qed.

Lemma loads_json_text (v : json) : json_wf v -> loads (json_text v) = Return v.
Proof.
  intros Hwf. unfold loads.
  pose proof (json_text_reads_back v Hwf (2 * String.length (json_text v) + 1) ""
                eq_refl) as Hr.
  replace (json_text v ++ "") with (json_text v) in Hr.
  - rewrite Hr; [reflexivity|lia].
  - clear. induction (json_text v) as [|c t IH]; simpl; [reflexivity|now rewrite <- IH].
Qed.


End CodecRoundTrip.

(** ** Runs on the concrete run-time *)

Lemma send_outcomes_witness :
  _send Demo.hooks Demo.one_viewer (Demo.Json (JInt 5)) COMMAND (Some (PortInt 3939))
    false (fresh [])
  = (Return (JBool true),
     after (fresh []) [EvConnect "ws://127.0.0.1:3939" None; EvSend "C:5"; EvRecv; EvClose])
  /\ _send Demo.hooks Demo.one_viewer (Demo.Json (JInt 5)) DATA (Some (PortInt 3939))
       false (fresh [])
     = (Return JNull,
        after (fresh []) [EvConnect "ws://127.0.0.1:3939" None; EvSend "D:5"; EvClose])
  /\ fst (_send Demo.hooks Demo.no_viewer (Demo.Json (JInt 5)) DATA (Some (PortInt 3939))
            false (fresh []))
     = Return JNull.
Proof.
  split; [|split].
  - refine (proj1 (send_outcomes Demo.hooks Demo.one_viewer (Demo.Json (JInt 5)) COMMAND
                     (Some (PortInt 3939)) false (fresh []) (PortInt 3939) "C:5" _ _)
              "true" (JBool true) _ _ _ _ _); try reflexivity.
    left. reflexivity.
  - refine (proj1 (proj2 (send_outcomes Demo.hooks Demo.one_viewer (Demo.Json (JInt 5)) DATA
                     (Some (PortInt 3939)) false (fresh []) (PortInt 3939) "D:5" _ _))
              _ _ _); try reflexivity.
    + left. reflexivity.
    + discriminate.
  - refine (proj2 (proj2 (send_outcomes Demo.hooks Demo.no_viewer (Demo.Json (JInt 5)) DATA
                     (Some (PortInt 3939)) false (fresh []) (PortInt 3939) "D:5" _ _))
              Demo.refused _ _); try reflexivity.
    + left. reflexivity.
    + left. reflexivity.
Defined.

Lemma serialization_error_returns_null_witness :
  _send Demo.hooks Demo.one_viewer (Demo.Object "Foo") DATA (Some (PortInt 3939))
    false (fresh [])
  = (Return JNull,
     after (fresh []) [EvPrint (cannot_connect (PortInt 3939));
                       EvPrint "Type is not JSON serializable"]).
Proof.
  refine (serialization_error_returns_null Demo.hooks Demo.one_viewer (Demo.Object "Foo")
            DATA (Some (PortInt 3939)) false (fresh []) (PortInt 3939)
            (Exception "JSONEncodeError" "Type is not JSON serializable") _ _ _);
    try reflexivity.
  left. reflexivity.
Defined.

(** C1 at a concrete payload: the hook rejects an object of class Foo with
    its TypeError, and [send_data] with that payload returns null; it does
    not raise. *)
Lemma unrecognized_object_is_not_raised :
  default Demo.hooks (Demo.Object "Foo")
  = Raise (TypeError "Object of type <class 'Foo'> is not JSON serializable")
  /\ fst (send_data Demo.hooks Demo.one_viewer (Demo.Object "Foo") (Some (PortInt 3939))
            false (fresh []))
     = Return JNull
  /\ ~ (exists e, fst (send_data Demo.hooks Demo.one_viewer (Demo.Object "Foo")
                          (Some (PortInt 3939)) false (fresh []))
                   = Raise e).
Proof.
  split; [reflexivity|]. split; [reflexivity|].
  intros [e He]. vm_compute in He. discriminate He.
Qed.

Lemma untagged_frame_is_bare_json_witness :
  encode Demo.hooks (Demo.Json (JInt 5)) UPDATES = Return "5"
  /\ sent_frames (trace (snd (_send Demo.hooks Demo.one_viewer (Demo.Json (JInt 5)) UPDATES
                                 (Some (PortInt 3939)) false (fresh []))))
     = ["5"].
Proof.
  destruct (untagged_frame_is_bare_json Demo.hooks Demo.one_viewer (Demo.Json (JInt 5))
              UPDATES (Some (PortInt 3939)) false (fresh []) (PortInt 3939) "5"
              eq_refl (or_introl eq_refl) eq_refl) as [Hframe Hsent].
  split; [exact Hframe|]. exact (Hsent eq_refl eq_refl).
Defined.

Lemma both_viewers_parse : keys_parse Demo.two_viewers.
Proof. repeat constructor; eexists; reflexivity. Defined.

Lemma other_folders_parse : keys_parse Demo.other_folders.
Proof. repeat constructor; eexists; reflexivity. Defined.

Lemma other_folders_no_match (E : env) :
  cwd_is_relative_to E = Demo.lies_under Demo.cwd ->
  forall entry, In entry Demo.other_folders -> workspace_match E entry = false.
Proof.
  intros Hcwd entry [<- | [<- | []]]; unfold workspace_match; simpl;
    rewrite Hcwd; apply andb_false_r.
Defined.

Lemma find_port_last_match_wins_witness :
  fst (find_port Demo.both_match (fresh Demo.two_viewers)) = Return (PortInt 3940)
  /\ CMD_PORT (snd (find_and_set_port Demo.both_match (fresh Demo.two_viewers)))
     = PortInt 3940.
Proof.
  destruct (find_port_last_match_wins Demo.both_match (fresh Demo.two_viewers)
              [("3939", {| roots := Some ["/home/user/project"]; connection_file := None |})]
              [] "3940" {| roots := Some ["/home/user"]; connection_file := None |} 3940%Z
              eq_refl both_viewers_parse eq_refl eq_refl
              (fun entry (Hin : In entry []) => match Hin with end))
    as (Hport & _ & Hset).
  split; [exact Hport|]. exact (proj1 (proj2 (Hset eq_refl))).
Defined.

(** C2 at a concrete store.  Two viewers are alive, on 3939 and 3940, and the
    current directory lies under a root of both.  The first match in store
    order is 3939; [find_port] probes both entries and returns 3940. *)
Lemma first_match_does_not_win :
  first_match Demo.both_match Demo.two_viewers = Some "3939"
  /\ find_port Demo.both_match (fresh Demo.two_viewers)
     = (Return (PortInt 3940), after (fresh Demo.two_viewers) [EvProbe 3939; EvProbe 3940])
  /\ fst (find_port Demo.both_match (fresh Demo.two_viewers)) <> Return (PortInt 3939).
Proof.
  split; [reflexivity|]. split; [reflexivity|].
  vm_compute. discriminate.
Qed.

Lemma find_and_set_port_without_match_witness :
  (fst (find_port (Demo.machine None [3940%Z] Demo.cwd JNull) (fresh Demo.other_folders))
   = Return (PortStr "3940")
   /\ CMD_PORT (snd (find_and_set_port (Demo.machine None [3940%Z] Demo.cwd JNull)
                       (fresh Demo.other_folders)))
      = PortStr "3940")
  /\ fst (find_and_set_port Demo.no_viewer (fresh Demo.other_folders))
     = Raise (RuntimeError no_port_message)
  /\ fst (find_and_set_port Demo.both_match (fresh Demo.other_folders))
     = Raise (RuntimeError (multiple_ports_message ["3939"; "3940"])).
Proof.
  split; [|split].
  - destruct (proj1 (find_and_set_port_without_match
                       (Demo.machine None [3940%Z] Demo.cwd JNull) (fresh Demo.other_folders)
                       eq_refl other_folders_parse
                       (other_folders_no_match (Demo.machine None [3940%Z] Demo.cwd JNull)
                          eq_refl))
                "3940" eq_refl) as (Hport & _ & Hheld & _).
    split; [exact Hport|exact Hheld].
  - exact (proj1 (proj1 (proj2 (find_and_set_port_without_match
                       Demo.no_viewer (fresh Demo.other_folders)
                       eq_refl other_folders_parse
                       (other_folders_no_match Demo.no_viewer eq_refl)))
                    eq_refl)).
  - refine (proj1 (proj2 (proj2 (find_and_set_port_without_match
                       Demo.both_match (fresh Demo.other_folders)
                       eq_refl other_folders_parse
                       (other_folders_no_match Demo.both_match eq_refl)))
                    _)).
    simpl. lia.
Defined.

Lemma new_snapshot_wf : dict_wf Demo.new_snapshot.
Proof.
  unfold dict_wf. simpl. repeat constructor; simpl; intuition discriminate.
Defined.

Lemma status_message_delta_witness :
  listen_turn (Demo.receiving (JDict Demo.status_fields)) Demo.quiet
    Demo.previous_snapshot
    (Return (Some (Demo.render (JDict Demo.status_fields)))) (fresh [])
  = (Return (Continue Demo.new_snapshot),
     after (fresh [])
       [EvRecv; EvCallback (JDict [("b", JInt 3); ("c", JInt 4)]) UPDATES]).
Proof.
  exact (proj1 (proj2 (status_message_delta (Demo.receiving (JDict Demo.status_fields))
           Demo.quiet Demo.previous_snapshot (Demo.render (JDict Demo.status_fields))
           Demo.status_fields Demo.new_snapshot [] (fresh [])
           eq_refl eq_refl eq_refl new_snapshot_wf (fun _ _ => eq_refl) eq_refl))).
Defined.

Lemma model_and_status_message_calls_twice_witness :
  callbacks (trace (snd (listen_turn (Demo.receiving (JDict Demo.model_status_fields))
                           Demo.quiet Demo.previous_snapshot
                           (Return (Some (Demo.render (JDict Demo.model_status_fields))))
                           (fresh []))))
  = [(JDict [("x", JInt 1)], DATA); (JDict [("b", JInt 3); ("c", JInt 4)], UPDATES)].
Proof.
  exact (model_and_status_message_calls_twice
           (Demo.receiving (JDict Demo.model_status_fields)) Demo.quiet
           Demo.previous_snapshot (Demo.render (JDict Demo.model_status_fields))
           Demo.model_status_fields Demo.new_snapshot (JDict [("x", JInt 1)]) (fresh [])
           eq_refl eq_refl eq_refl eq_refl eq_refl).
Defined.

Lemma listener_registers_witness :
  (exists rest,
      trace (snd (_listen Demo.one_viewer Demo.quiet [] (fresh [])))
      = trace (fresh []) ++ [EvConnect "ws://127.0.0.1:3939" (Some 268435456%Z);
                             EvSend "L:register"] ++ rest
      /\ count_connects rest = 0%nat)
  /\ register_frame = (kind_prefix LISTEN ++ "register")%string
  /\ (websockets_default_max_size < max_size)%Z.
Proof.
  exact (listener_registers Demo.one_viewer Demo.quiet [] (fresh []) eq_refl).
Defined.

(** C6 at a concrete run.  The one frame a starting listener sends is
    L:register; behind the two bytes of the tag stands register, not
    listen. *)
Lemma registration_payload_is_not_listen :
  sent_frames (trace (snd (_listen Demo.one_viewer Demo.quiet [] (fresh []))))
  = ["L:register"]
  /\ drop_prefix 2 "L:register" = "register"
  /\ sent_frames (trace (snd (_listen Demo.one_viewer Demo.quiet [] (fresh []))))
     <> [("L:" ++ "listen")%string].
Proof.
  split; [reflexivity|]. split; [reflexivity|].
  vm_compute. discriminate.
Qed.

(** C7 at a fresh module with OCP_PORT set to 4000 and viewers on 3939 and
    4000.  [get_port] and a send without a port discover port 4000 and cache
    it.  A listener started first discovers nothing: it connects to the
    initial port 3939 and leaves the module uninitialised. *)
Example listener_skips_port_discovery :
  get_port Demo.override_4000 (fresh [])
  = (Return (PortInt 4000),
     {| CMD_PORT := PortInt 4000; INIT_DONE := true; state_file := [];
        trace := [EvPrint "Using predefined port 4000 taken from environment variable OCP_PORT";
                  EvPrint "Jupyter console not installed"] |})
  /\ sent_frames (trace (snd (_send Demo.hooks Demo.override_4000 (Demo.Json (JInt 5)) DATA
                                None false (fresh []))))
     = ["D:5"]
  /\ In (EvConnect "ws://127.0.0.1:4000" None)
        (trace (snd (_send Demo.hooks Demo.override_4000 (Demo.Json (JInt 5)) DATA
                       None false (fresh []))))
  /\ _listen Demo.override_4000 Demo.quiet [] (fresh [])
     = (Return (Waiting []),
        {| CMD_PORT := PortInt 3939; INIT_DONE := false; state_file := [];
           trace := [EvConnect "ws://127.0.0.1:3939" (Some max_size);
                     EvSend "L:register"] |}).
Proof.
  split; [reflexivity|]. split; [reflexivity|]. split; [|reflexivity].
  vm_compute. tauto.
Qed.

Lemma find_and_set_port_override_witness :
  find_and_set_port Demo.override_4000 (fresh Demo.two_viewers)
  = (Return tt,
     {| CMD_PORT := PortInt 4000; INIT_DONE := true; state_file := Demo.two_viewers;
        trace := [EvPrint "Using predefined port 4000 taken from environment variable OCP_PORT"]
     |}).
Proof.
  refine (find_and_set_port_override Demo.override_4000 (fresh Demo.two_viewers)
            "4000" 4000%Z eq_refl eq_refl _).
  reflexivity.
Defined.

Lemma unrecognized_message_is_ignored_witness :
  listen_turn (Demo.receiving (JDict Demo.unknown_fields)) Demo.quiet
    Demo.previous_snapshot
    (Return (Some (Demo.render (JDict Demo.unknown_fields)))) (fresh [])
  = (Return (Continue Demo.previous_snapshot), after (fresh []) [EvRecv]).
Proof.
  exact (unrecognized_message_is_ignored (Demo.receiving (JDict Demo.unknown_fields))
           Demo.quiet Demo.previous_snapshot (Demo.render (JDict Demo.unknown_fields))
           Demo.unknown_fields (fresh []) eq_refl eq_refl eq_refl).
Defined.

Lemma receive_error_stops_listening_witness :
  listen_loop Demo.one_viewer Demo.quiet
    [Raise (Exception "ConnectionClosedOK" "received 1000 (OK)"); Return (Some "null")]
    [] (fresh [])
  = (Return Stopped, after (fresh []) [EvRecv; EvPrint "received 1000 (OK)"]).
Proof.
  exact (receive_error_stops_listening Demo.one_viewer Demo.quiet []
           (Exception "ConnectionClosedOK" "received 1000 (OK)")
           [Return (Some "null")] (fresh []) eq_refl).
Defined.

(** *** The JSON codec on concrete texts *)


(** The frame of that payload, byte by byte: the control character and the
    backslash are escaped. *)
Example encode_escapes :
  encode Codec.hooks (Demo.Json (JDict [("note", JStr ("a\b" ++ nl)%string)])) DATA
  = Return ("D:{" ++ String Codec.double_quote "note" ++ String Codec.double_quote ":"
            ++ String Codec.double_quote "a\\b\n" ++ String Codec.double_quote "}")%string.
Proof. reflexivity. Qed.

(** The reader takes whitespace between tokens, every escape of JSON, and a
    surrogate pair as one code point. *)
Example loads_spaced_text :
  Codec.loads (" [ 1 , -0 ,{ " ++ String Codec.double_quote "k"
               ++ String Codec.double_quote " : "
               ++ String Codec.double_quote "\u00e9\/\ud83d\uDE00\t"
               ++ String Codec.double_quote "} , true,false , null ] ")%string
  = Return (JList [JInt 1; JInt 0;
                   JDict [("k", JStr (String "195" (String "169" (String "/"
                                 (String "240" (String "159" (String "152"
                                    (String "128" (String "009" "")))))))))];
                   JBool true; JBool false; JNull]).
Proof. vm_compute. reflexivity. Qed.

(** Of a repeated key the last value stays: the distinct keys of a
    representable payload are needed for the round trip. *)
Example loads_repeated_key :
  Codec.loads (Codec.json_text (JDict [("a", JInt 1); ("b", JInt 2); ("a", JInt 3)]))
  = Return (JDict [("a", JInt 3); ("b", JInt 2)]).
Proof. vm_compute. reflexivity. Qed.

Example loads_refuses :
  Codec.loads "[1,]" = Raise (Codec.decode_error "Expecting value")
  /\ Codec.loads "01" = Raise (Codec.decode_error "not an int literal")
  /\ Codec.loads "[1 2]" = Raise (Codec.decode_error "Expecting ',' delimiter")
  /\ Codec.loads "nul" = Raise (Codec.decode_error "Expecting value")
  /\ Codec.loads "true false" = Raise (Codec.decode_error "Extra data")
  /\ Codec.loads (String Codec.double_quote "a") = Raise (Codec.decode_error "Invalid string").
Proof. repeat split. Qed.

(** An int of more than 64 bits is not written: no frame is made. *)
Example encode_wide_int :
  encode Codec.hooks (Demo.Json (JList [JInt (2 ^ 64)])) DATA
  = Raise (Exception "JSONEncodeError" "Integer exceeds 64-bit range")
  /\ encode Codec.hooks (Demo.Json (JList [JInt (2 ^ 64 - 1); JInt (- 2 ^ 63)])) DATA
     = Return "D:[18446744073709551615,-9223372036854775808]"%string.
Proof. split; vm_compute; reflexivity. Qed.

(** * Further properties *)

Section AddsOnly.
Variable P : event -> bool.

Lemma adds_ret {A : Type} (a : A) : adds_only P (ret a).
Proof. intros s. exists []. split; [|reflexivity]. simpl. destruct s; unfold after; simpl. now rewrite app_nil_r. Qed.

Lemma adds_raise {A : Type} (e : exn) : adds_only P (@raise A e).
Proof. intros s. exists []. split; [|reflexivity]. simpl. destruct s; unfold after; simpl. now rewrite app_nil_r. Qed.

Lemma adds_lift {A : Type} (o : outcome A) : adds_only P (lift o).
Proof. intros s. exists []. split; [|reflexivity]. simpl. destruct s; unfold after; simpl. now rewrite app_nil_r. Qed.

Lemma adds_emit (e : event) : P e = true -> adds_only P (emit e).
Proof. intros He s. exists [e]. simpl. rewrite He. split; reflexivity. Qed.

Lemma after_twice (s : state) (evs evs' : list event) :
  after (after s evs) evs' = after s (evs ++ evs').
Proof. unfold after. simpl. now rewrite app_assoc. Qed.

Lemma adds_bind {A B : Type} (m : M A) (k : A -> M B) :
  adds_only P m -> (forall a, adds_only P (k a)) -> adds_only P (bind m k).
Proof.
  intros Hm Hk s. unfold bind.
  destruct (Hm s) as (evs & Hs & Hall).
  destruct (m s) as [[a|e] s1]; simpl in Hs; subst s1.
  - destruct (Hk a (after s evs)) as (evs' & Hs' & Hall').
    exists (evs ++ evs'). rewrite Hs', after_twice, forallb_app, Hall, Hall'. now split.
  - exists evs. now split.
Qed.

Lemma adds_try_except {A : Type} (body : M A) (handler : exn -> M A) :
  adds_only P body -> (forall e, adds_only P (handler e)) ->
  adds_only P (try_except body handler).
Proof.
  intros Hm Hk s. unfold try_except.
  destruct (Hm s) as (evs & Hs & Hall).
  destruct (body s) as [[a|e] s1]; simpl in Hs; subst s1.
  - exists evs. now split.
  - destruct (isinstance_Exception e).
    + destruct (Hk e (after s evs)) as (evs' & Hs' & Hall').
      exists (evs ++ evs'). rewrite Hs', after_twice, forallb_app, Hall, Hall'. now split.
    + exists evs. now split.
Qed.

Lemma adds_try_except_all {A : Type} (body handler : M A) :
  adds_only P body -> adds_only P handler ->
  adds_only P (try_except_all body handler).
Proof.
  intros Hm Hk s. unfold try_except_all.
  destruct (Hm s) as (evs & Hs & Hall).
  destruct (body s) as [[a|e] s1]; simpl in Hs; subst s1.
  - exists evs. now split.
  - destruct (Hk (after s evs)) as (evs' & Hs' & Hall').
    exists (evs ++ evs'). rewrite Hs', after_twice, forallb_app, Hall, Hall'. now split.
Qed.

End AddsOnly.

Lemma adds_bind_ret {A B : Type} (P : event -> bool) (a : A) (k : A -> M B) :
  adds_only P (k a) -> adds_only P (bind (ret a) k).
Proof. intros Hk s. exact (Hk s). Qed.

(** X6. A send with an explicit port changes nothing but the trace: the port
    and the flag of the module and the State Store stay as they are (the
    port is not cached), no port is probed, no callback is called, and no
    URL but that of the given port is connected to. *)
Theorem explicit_port_is_not_cached {obj : Type} (H : hooks obj) (E : env) (data : obj)
  (mt : MessageType) (p : pyport) (timeit : bool) (s : state) :
  exists evs,
    snd (_send H E data mt (Some p) timeit s) = after s evs
    /\ forallb (sending_to (url_of p)) evs = true.
Proof.
  assert (Hurl : sending_to (url_of p) (EvConnect (url_of p) None) = true)
    by apply String.eqb_refl.
  revert s. change (adds_only (sending_to (url_of p)) (_send H E data mt (Some p) timeit)).
  unfold _send, print.
  apply adds_bind_ret, adds_try_except.
  - apply adds_bind; [apply adds_lift|intros j].
    apply adds_bind; [now apply adds_emit|intros _].
    apply adds_bind; [apply adds_lift|intros _].
    apply adds_bind; [now apply adds_emit|intros _].
    apply adds_bind; [apply adds_lift|intros _].
    apply adds_bind.
    + destruct (MessageType_eqb mt COMMAND); [|apply adds_ret].
      apply adds_try_except.
      * apply adds_bind; [now apply adds_emit|intros _].
        apply adds_bind; [apply adds_lift|intros reply]. apply adds_lift.
      * intros ex. apply adds_bind; [now apply adds_emit|intros _]. apply adds_ret.
    + intros result. apply adds_bind; [|intros _; apply adds_ret].
      apply adds_try_except_all; [|apply adds_ret].
      apply adds_bind; [now apply adds_emit|intros _]. apply adds_lift.
  - intros ex. apply adds_bind; [now apply adds_emit|intros _].
    apply adds_bind; [now apply adds_emit|intros _]. apply adds_ret.
Qed.

(** X7. Whatever a send that knows its port raises is no [Exception]: encode,
    connect, send, receive, parse and close errors of that class all end in
    a returned value. *)
Theorem known_port_send_raises_no_Exception {obj : Type} (H : hooks obj) (E : env)
  (data : obj) (mt : MessageType) (port : option pyport) (timeit : bool)
  (s : state) (p : pyport) (e : exn) :
  port_known s port p ->
  fst (_send H E data mt port timeit s) = Raise e ->
  isinstance_Exception e = false.
Proof.
  intros Hk. rewrite (_send_known_port H E data mt port timeit s p Hk).
  unfold _send. unfold bind at 1. unfold ret at 1. unfold try_except.
  match goal with |- context [match ?body s with _ => _ end] => destruct (body s) as [[v|e'] s1] end.
  - discriminate.
  - destruct (isinstance_Exception e') eqn:Hex.
    + unfold print, bind, emit, ret. simpl. discriminate.
    + simpl. intros [= <-]. exact Hex.
Qed.

(** X8. Port resolution stands outside the [try] block: when it raises on
    the first send without a port, the send raises the same error to the
    caller with nothing encoded, connected or sent, and so does
    [get_port]. *)
Theorem resolution_error_escapes {obj : Type} (H : hooks obj) (E : env)
  (data : obj) (mt : MessageType) (timeit : bool) (s s' : state) (e : exn) :
  INIT_DONE s = false ->
  find_and_set_port E s = (Raise e, s') ->
  _send H E data mt None timeit s = (Raise e, s')
  /\ get_port E s = (Raise e, s').
Proof.
  intros Hinit Hfind. split.
  - unfold _send, bind, read_INIT_DONE. rewrite Hinit. cbn [negb]. cbv beta iota.
    rewrite Hfind. reflexivity.
  - unfold get_port, bind, read_INIT_DONE. rewrite Hinit. cbn [negb]. cbv beta iota.
    rewrite Hfind. reflexivity.
Qed.

(** X9. An OCP_PORT that [int] rejects makes [find_and_set_port],
    [get_port] and a send without a port raise that ValueError at once:
    nothing is printed, probed or cached. *)
Theorem bad_OCP_PORT_raises {obj : Type} (H : hooks obj) (E : env)
  (data : obj) (mt : MessageType) (timeit : bool) (s : state) (v : string) (e : exn) :
  OCP_PORT E = Some v ->
  py_int v = Raise e ->
  INIT_DONE s = false ->
  find_and_set_port E s = (Raise e, s)
  /\ get_port E s = (Raise e, s)
  /\ _send H E data mt None timeit s = (Raise e, s).
Proof.
  intros Hocp Hv Hinit.
  assert (Hfind : find_and_set_port E s = (Raise e, s)).
  { unfold find_and_set_port, bind, lift. rewrite Hocp, Hv. reflexivity. }
  split; [exact Hfind|].
  destruct (resolution_error_escapes H E data mt timeit s s e Hinit Hfind) as [Hs Hg].
  now split.
Qed.

(** X10. An OCP_PORT of zero or below is no override: the port comes from
    [find_port] as if the variable were not set. *)
Theorem nonpositive_OCP_PORT_is_ignored (E : env) (s : state) (v : string) (n : Z) :
  OCP_PORT E = Some v ->
  py_int v = Return n ->
  (n <= 0)%Z ->
  find_and_set_port E s
  = match find_port E s with
    | (Return found, s') =>
        (Return tt,
         {| CMD_PORT := found; INIT_DONE := true; state_file := state_file s';
            trace := trace s' ++ [EvPrint ("Using port " ++ str_port found
                                           ++ " taken from config file")%string] |})
    | (Raise e, s') => (Raise e, s')
    end.
Proof.
  intros Hocp Hv Hn. unfold find_and_set_port. rewrite Hocp, Hv.
  apply Z.ltb_ge in Hn.
  unfold bind, lift. rewrite Hn.
  cbn -[find_port str_port append app].
  destruct (find_port E s) as [[found|e] s']; reflexivity.
Qed.

(** X11. A COMMAND whose reply cannot be received, or is not JSON: the frame
    was sent, the error is printed alone (not the cannot-connect line), the
    connection is closed and null is returned. *)
Theorem command_without_reply_returns_null {obj : Type} (H : hooks obj) (E : env)
  (data : obj) (port : option pyport) (timeit : bool) (s : state) (p : pyport)
  (j : string) (e : exn) :
  port_known s port p ->
  encode H data COMMAND = Return j ->
  ws_connect E (url_of p) = Return tt ->
  ws_send E j = Return tt ->
  ws_recv E = Raise e
  \/ (exists reply, ws_recv E = Return reply /\ json_loads E reply = Raise e) ->
  isinstance_Exception e = true ->
  _send H E data COMMAND port timeit s
  = (Return JNull,
     after s [EvConnect (url_of p) None; EvSend j; EvRecv; EvPrint (str_exn e); EvClose]).
Proof.
  intros Hk He Hc Hs Hr Hex.
  rewrite (_send_known_port H E data COMMAND port timeit s p Hk).
  unfold _send, bind, try_except, try_except_all, lift, ret, print. run.
  rewrite He. run. rewrite Hc. run. rewrite Hs. run.
  destruct Hr as [Hr | (reply & Hr & Hl)].
  - rewrite Hr. run. rewrite Hex. run. destruct (ws_close E); settle.
  - rewrite Hr. run. rewrite Hl. run. rewrite Hex. run. destruct (ws_close E); settle.
Qed.

(** X12. An exception that is no [Exception] (a keyboard interrupt) raised
    while a COMMAND waits for its reply leaves [_send] at once: it reaches
    the caller and the connection is not closed. *)
Theorem interrupt_while_waiting_for_reply {obj : Type} (H : hooks obj) (E : env)
  (data : obj) (port : option pyport) (timeit : bool) (s : state) (p : pyport)
  (j : string) (e : exn) :
  port_known s port p ->
  encode H data COMMAND = Return j ->
  ws_connect E (url_of p) = Return tt ->
  ws_send E j = Return tt ->
  ws_recv E = Raise e ->
  isinstance_Exception e = false ->
  _send H E data COMMAND port timeit s
  = (Raise e, after s [EvConnect (url_of p) None; EvSend j; EvRecv]).
Proof.
  intros Hk He Hc Hs Hr Hex.
  rewrite (_send_known_port H E data COMMAND port timeit s p Hk).
  unfold _send, bind, try_except, try_except_all, lift, ret, print. run.
  rewrite He. run. rewrite Hc. run. rewrite Hs. run.
  rewrite Hr. run. rewrite Hex. run. rewrite Hex. settle.
Qed.

Lemma only_update_state (P : event -> bool) (port : string) (item : option string) :
  only_events P (update_state port item).
Proof. intros s. exists []. simpl. rewrite app_nil_r. repeat split. Qed.

Lemma only_port_check (E : env) (port : Z) : only_events discovering (port_check E port).
Proof.
  unfold port_check. apply only_bind; [now apply only_emit|intros _]. apply only_ret.
Qed.

Lemma only_scan_states (E : env) (states : state_store) :
  forall port, only_events discovering (scan_states E states port).
Proof.
  induction states as [|[p st] rest IH]; intros port; simpl.
  - apply only_ret.
  - apply only_bind; [apply only_lift|intros n].
    apply only_bind; [apply only_port_check|intros alive].
    destruct (negb alive); [|apply IH].
    apply only_bind; [now apply only_emit|intros _].
    apply only_bind; [apply only_update_state|intros _]. apply IH.
Qed.

Lemma only_alive_ports (E : env) (states : state_store) :
  only_events discovering (alive_ports E states).
Proof.
  induction states as [|[p st] rest IH]; simpl.
  - apply only_ret.
  - apply only_bind; [apply only_lift|intros n].
    apply only_bind; [apply only_port_check|intros alive].
    apply only_bind; [apply IH|intros ports]. apply only_ret.
Qed.

Lemma only_find_port (E : env) : only_events discovering (find_port E).
Proof.
  unfold find_port, get_state.
  apply only_bind.
  - intros s. exists []. simpl. rewrite app_nil_r. repeat split.
  - intros states. apply only_bind; [apply only_scan_states|intros [p|]].
    + apply only_ret.
    + apply only_bind; [apply only_alive_ports|intros ports].
      destruct (Nat.eqb _ _); [apply only_ret|].
      destruct (Nat.ltb _ _); apply only_raise.
Qed.

Lemma only_set_connection_file (E : env) : only_events discovering (set_connection_file E).
Proof.
  unfold set_connection_file, print, read_CMD_PORT.
  destruct (if JCONSOLE E then ipython_kernel E else None) as [kernel|].
  - apply only_bind; [apply only_lift|intros cf].
    apply only_bind; [apply only_lift|intros iopub].
    apply only_bind; [apply only_port_check|intros alive].
    destruct alive; [|now apply only_emit].
    apply only_bind; [now apply only_emit|intros _].
    apply only_bind.
    + intros s. exists []. simpl. rewrite app_nil_r. repeat split.
    + intros port. apply only_bind; [apply only_update_state|intros _].
      now apply only_emit.
  - destruct (negb (JCONSOLE E)); now apply only_emit.
Qed.

(** How [find_and_set_port] can end. *)
Lemma find_and_set_port_ends (E : env) (s : state) :
  (exists e s', find_and_set_port E s = (Raise e, s') /\ same_globals s s')
  \/ (exists s', find_and_set_port E s = (Return tt, s') /\ INIT_DONE s' = true).
Proof.
  unfold find_and_set_port, bind, lift.
  destruct (py_int _) as [n|e].
  - destruct (0 <? n)%Z; cbn -[find_port py_str_int str_port append app].
    + right. eexists. split; reflexivity.
    + destruct (only_find_port E s) as (evs & _ & _ & Hg).
      destruct (find_port E s) as [[found|e] s1]; simpl in Hg.
      * right. eexists. split; reflexivity.
      * left. exists e, s1. split; [reflexivity|exact Hg].
  - left. exists e, s. split; [reflexivity|split; reflexivity].
Qed.

(** X13. A [find_and_set_port] that raises leaves the port and the
    initialised flag as they were, so the next call resolves again. *)
Theorem failed_resolution_caches_nothing (E : env) (s s' : state) (e : exn) :
  find_and_set_port E s = (Raise e, s') ->
  CMD_PORT s' = CMD_PORT s /\ INIT_DONE s' = INIT_DONE s.
Proof.
  intros Hfind.
  destruct (find_and_set_port_ends E s) as [(e' & s1 & Heq & Hg) | (s1 & Heq & _)];
    rewrite Heq in Hfind; [|discriminate].
  injection Hfind as _ <-. exact Hg.
Qed.

(** X14. Whenever [get_port] returns a port, the module is initialised and
    holds that port: a second [get_port] returns it with no effect at all,
    and a send without a port knows it. *)
Theorem get_port_result_is_cached (E : env) (s s' : state) (p : pyport) :
  get_port E s = (Return p, s') ->
  port_known s' None p /\ get_port E s' = (Return p, s').
Proof.
  intros Hget.
  assert (Hheld : INIT_DONE s' = true /\ CMD_PORT s' = p).
  { unfold get_port, bind, read_INIT_DONE, read_CMD_PORT in Hget.
    destruct (INIT_DONE s) eqn:Hinit; cbn [negb] in Hget; cbv beta iota in Hget.
    - simpl in Hget. injection Hget as <- <-. now split.
    - destruct (find_and_set_port_ends E s) as [(e & s1 & Heq & _) | (s1 & Heq & Hdone)];
        rewrite Heq in Hget; [discriminate|].
      destruct (only_set_connection_file E s1) as (evs & _ & _ & Hc & Hi).
      destruct (set_connection_file E s1) as [[[]|e] s2]; [|discriminate].
      simpl in Hc, Hi, Hget. injection Hget as <- <-. split; congruence. }
  destruct Hheld as [Hdone Hport]. split.
  - right. repeat split; assumption.
  - rewrite (get_port_cached E s' Hdone), Hport. reflexivity.
Qed.

(** X15. When the port is resolved but the Jupyter connection file cannot be
    read, the first [get_port] or send without a port raises that error
    (nothing is sent); the port stays cached, and the next [get_port]
    returns it without touching Jupyter again. *)
Theorem jupyter_failure_keeps_resolved_port {obj : Type} (H : hooks obj) (E : env)
  (data : obj) (mt : MessageType) (timeit : bool) (s s1 : state) (cf : string) (e : exn) :
  INIT_DONE s = false ->
  find_and_set_port E s = (Return tt, s1) ->
  JCONSOLE E = true ->
  ipython_kernel E = Some (Return cf) ->
  connection_info E cf = Raise e ->
  get_port E s = (Raise e, s1)
  /\ _send H E data mt None timeit s = (Raise e, s1)
  /\ get_port E s1 = (Return (CMD_PORT s1), s1).
Proof.
  intros Hinit Hfind Hj Hk Hci.
  assert (Hscf : set_connection_file E s1 = (Raise e, s1)).
  { unfold set_connection_file. rewrite Hj, Hk. unfold bind, lift. rewrite Hci.
    reflexivity. }
  split; [|split].
  - unfold get_port, bind, read_INIT_DONE. rewrite Hinit. cbn [negb]. cbv beta iota.
    rewrite Hfind. cbv beta iota. rewrite Hscf. reflexivity.
  - unfold _send, bind, read_INIT_DONE. rewrite Hinit. cbn [negb]. cbv beta iota.
    rewrite Hfind. cbv beta iota. rewrite Hscf. reflexivity.
  - apply get_port_cached.
    destruct (find_and_set_port_ends E s) as [(e' & s2 & Heq & _) | (s2 & Heq & Hdone)];
      rewrite Heq in Hfind; [discriminate|].
    now injection Hfind as <-.
Qed.

(** X16. [get_port], with all of port discovery inside it, only prints and
    probes: it opens no websocket, sends and receives nothing, and calls no
    callback. *)
Theorem discovery_only_prints_and_probes (E : env) (s : state) :
  exists evs,
    trace (snd (get_port E s)) = trace s ++ evs
    /\ forallb discovering evs = true.
Proof.
  unfold get_port, bind, read_INIT_DONE, read_CMD_PORT.
  destruct (INIT_DONE s); cbn [negb]; cbv beta iota.
  - exists []. simpl. now rewrite app_nil_r.
  - assert (Hfind : exists evs, trace (snd (find_and_set_port E s)) = trace s ++ evs
                                /\ forallb discovering evs = true).
    { unfold find_and_set_port, bind, lift.
      destruct (py_int _) as [n|e]; [|exists []; simpl; now rewrite app_nil_r].
      destruct (0 <? n)%Z; cbn -[find_port py_str_int str_port append app].
      - eexists [_]. split; reflexivity.
      - destruct (only_find_port E s) as (evs & Htr & Hall & _).
        destruct (find_port E s) as [[found|e] s1]; simpl in Htr.
        + eexists (evs ++ [_]). simpl. rewrite Htr, <- app_assoc, forallb_app, Hall.
          split; reflexivity.
        + exists evs. now split. }
    destruct Hfind as (evs & Htr & Hall).
    destruct (find_and_set_port E s) as [[[]|e] s1]; simpl in Htr.
    + destruct (only_set_connection_file E s1) as (evs' & Htr' & Hall' & _).
      destruct (set_connection_file E s1) as [[[]|e] s2]; simpl in Htr'; simpl;
        exists (evs ++ evs'); rewrite Htr', Htr, <- app_assoc, forallb_app, Hall, Hall';
        now split.
    + exists evs. now split.
Qed.

(** X17. A send that knows its port, encodes its payload and gets its
    connection writes exactly one frame, the kind tag followed by the JSON
    bytes, whatever happens to the send, the reply or the close
    afterwards. *)
Theorem one_frame_per_send {obj : Type} (H : hooks obj) (E : env) (data : obj)
  (mt : MessageType) (port : option pyport) (timeit : bool) (s : state)
  (p : pyport) (j : string) :
  port_known s port p ->
  orjson_dumps H (default H) data = Return j ->
  ws_connect E (url_of p) = Return tt ->
  sent_frames (trace (snd (_send H E data mt port timeit s)))
  = sent_frames (trace s) ++ [(kind_prefix mt ++ j)%string].
Proof.
  intros Hk Hd Hc.
  rewrite (_send_known_port H E data mt port timeit s p Hk).
  unfold _send, encode, bind, try_except, try_except_all, lift, ret, print. run.
  rewrite Hd. run. rewrite Hc. run.
  assert (Hfin : forall evs : list event,
             sent_frames evs = [(kind_prefix mt ++ j)%string] ->
             sent_frames (trace s ++ evs)
             = sent_frames (trace s) ++ [(kind_prefix mt ++ j)%string]).
  { intros evs Hevs. unfold sent_frames in *. now rewrite flat_map_app, Hevs. }
  destruct (ws_send E (kind_prefix mt ++ j)%string) as [[]|e1]; run.
  - destruct (MessageType_eqb mt COMMAND); run.
    + destruct (ws_recv E) as [r|e2]; run.
      * destruct (json_loads E r) as [v|e3]; run.
        -- destruct (ws_close E); run; rewrite <- !app_assoc; now apply Hfin.
        -- destruct (isinstance_Exception e3) eqn:Hex; run;
             [destruct (ws_close E); run|rewrite Hex; run];
             rewrite <- !app_assoc; now apply Hfin.
      * destruct (isinstance_Exception e2) eqn:Hex; run;
          [destruct (ws_close E); run|rewrite Hex; run];
          rewrite <- !app_assoc; now apply Hfin.
    + destruct (ws_close E); run; rewrite <- !app_assoc; now apply Hfin.
  - destruct (isinstance_Exception e1); run; rewrite <- !app_assoc; now apply Hfin.
Qed.

Lemma dict_get_In {V : Type} (d : dict V) (k : string) (v : V) :
  dict_wf d -> In (k, v) d -> dict_get d k = Some v.
Proof.
  unfold dict_wf. induction d as [|[k' v'] d IH]; simpl; intros Hnd Hin; [easy|].
  inversion Hnd as [|x l Hfresh Hnd']; subst.
  destruct Hin as [[= -> ->] | Hin].
  - now rewrite String.eqb_refl.
  - destruct (String.eqb_spec k' k) as [->|Hne]; [|now apply IH].
    exfalso. apply Hfresh. unfold dict_keys. apply in_map_iff. now exists (k, v).
Qed.

Lemma py_eq_refl (v : json) : json_wf v -> py_eq v v = true.
Proof.
  induction v using json_nested_ind; intros Hwf; simpl.
  - reflexivity.
  - apply Bool.eqb_reflx.
  - apply Z.eqb_refl.
  - apply String.eqb_refl.
  - inversion Hwf as [| | | |l' Hall|]; subst. clear Hwf.
    induction l as [|x l IH]; [reflexivity|].
    inversion H as [|? ? Hx Hl]; subst. inversion Hall as [|? ? Hwx Hwl]; subst.
    rewrite (Hx Hwx). simpl. now apply IH.
  - inversion Hwf as [| | | | |d' Hnd Hall]; subst. clear Hwf.
    rewrite Nat.eqb_refl. simpl.
    assert (Hget : forall k x, In (k, x) d -> dict_get d k = Some x)
      by (intros k x; now apply dict_get_In).
    match goal with
    | |- ?f d = true =>
        assert (Haux : forall d1, (forall k x, In (k, x) d1 -> In (k, x) d) ->
                                  Forall (fun kv => json_wf (snd kv) -> py_eq (snd kv) (snd kv) = true) d1 ->
                                  Forall (fun kv => json_wf (snd kv)) d1 ->
                                  f d1 = true)
    end.
    { induction d1 as [|[k x] d1 IH]; intros Hsub Hrefl Hwf1; [reflexivity|].
      inversion Hrefl as [|? ? Hx Hr]; subst. inversion Hwf1 as [|? ? Hwx Hw]; subst.
      simpl in Hx, Hwx. rewrite (Hget k x (Hsub k x (or_introl eq_refl))), (Hx Hwx).
      simpl. apply IH; trivial. intros k' x' Hin. apply Hsub. now right. }
    apply Haux; trivial.
Qed.

(** X18. The tag tells the kinds apart: two frames of tagged kinds that are
    the same bytes are of the same kind, whatever the payloads. *)
Theorem frames_of_tagged_kinds_differ {obj : Type} (H : hooks obj) (data data' : obj)
  (a b : MessageType) (frame : string) :
  tagged a = true -> tagged b = true ->
  encode H data a = Return frame ->
  encode H data' b = Return frame ->
  a = b.
Proof.
  intros Ha Hb. unfold encode.
  destruct (orjson_dumps H (default H) data) as [j|]; [|discriminate].
  destruct (orjson_dumps H (default H) data') as [j'|]; [|discriminate].
  intros [= <-] [= Heq].
  destruct a, b; try reflexivity; try discriminate Ha; try discriminate Hb;
    simpl in Heq; discriminate Heq.
Qed.

(** X19. The delta is the sub-list of the new snapshot made of the items that
    are new or changed, in the order of the new snapshot, with distinct
    keys; a key that is not in the new snapshot is not in the delta, so a
    key that disappeared is not reported. *)
Theorem delta_is_ordered_selection (last_config changes : dict json) :
  dict_wf changes ->
  status_delta last_config changes = filter (kept last_config) changes
  /\ (forall k, dict_get changes k = None ->
                dict_get (status_delta last_config changes) k = None)
  /\ dict_wf (status_delta last_config changes).
Proof.
  intros Hwf. rewrite (status_delta_filter last_config changes Hwf).
  split; [reflexivity|]. split.
  - intros k Hk. apply dict_get_None. apply dict_get_None in Hk.
    intros Hin. apply Hk. unfold dict_keys in *.
    apply in_map_iff in Hin as (kv & <- & Hin). apply filter_In in Hin as [Hin _].
    now apply in_map.
  - unfold dict_wf, dict_keys in *. clear -Hwf.
    induction changes as [|[k v] d IH]; simpl; [constructor|].
    inversion Hwf as [|x l Hfresh Hnd]; subst.
    destruct (kept last_config (k, v)); [|now apply IH].
    simpl. constructor; [|now apply IH].
    intros Hin. apply Hfresh. apply in_map_iff in Hin as (kv & <- & Hin).
    apply filter_In in Hin as [Hin _]. now apply in_map.
Qed.

Lemma filter_nothing {A : Type} (f : A -> bool) (l : list A) :
  (forall x, In x l -> f x = false) -> filter f l = [].
Proof.
  induction l as [|x l IH]; intros Hf; [reflexivity|]. simpl.
  rewrite (Hf x (or_introl eq_refl)). apply IH. intros y Hy. apply Hf. now right.
Qed.

Lemma unchanged_delta_empty (changes : dict json) :
  json_wf (JDict changes) -> status_delta changes changes = [].
Proof.
  intros Hwf. inversion Hwf as [| | | | |d Hnd Hall]; subst.
  rewrite (status_delta_filter changes changes Hnd).
  assert (Hkept : forall kv, In kv changes -> kept changes kv = false).
  { intros [k v] Hin. unfold kept, dict_contains, dict_get_or_None. simpl.
    rewrite (dict_get_In changes k v Hnd Hin). simpl.
    rewrite Forall_forall in Hall. now rewrite (py_eq_refl v (Hall (k, v) Hin)). }
  now apply filter_nothing.
Qed.

(** X20. A status message that repeats the stored snapshot (its dicts have
    distinct keys) has an empty delta, and the callback is called with the
    empty dict. *)
Theorem repeated_snapshot_gives_empty_delta (E : env)
  (callback : json -> MessageType -> outcome unit)
  (text : string) (fields changes : dict json) (s : state) :
  json_loads E text = Return (JDict fields) ->
  json_wf (JDict changes) ->
  dict_get fields "model" = None ->
  dict_get fields "command" = Some (JStr "status") ->
  dict_get fields "text" = Some (JDict changes) ->
  callback (JDict []) UPDATES = Return tt ->
  status_delta changes changes = []
  /\ listen_turn E callback changes (Return (Some text)) s
     = (Return (Continue changes), after s [EvRecv; EvCallback (JDict []) UPDATES]).
Proof.
  intros Hl Hwf Hm Hcmd Htext Hcb.
  pose proof (unchanged_delta_empty changes Hwf) as Hempty.
  split; [exact Hempty|].
  rewrite (listen_turn_status E callback changes text fields changes s Hl).
  - unfold model_calls. rewrite Hm, Hempty. reflexivity.
  - intros model Hmodel. congruence.
  - exact Hcmd.
  - exact Htext.
  - now rewrite Hempty.
Qed.

(** X21. A frame that is not JSON, or is JSON but no object, ends the whole
    loop: the error is printed, no callback is called, later frames are not
    read. *)
Theorem malformed_frame_stops_listening (E : env)
  (callback : json -> MessageType -> outcome unit)
  (last_config : dict json) (text : string) (e : exn)
  (rest : list (outcome (option string))) (s : state) :
  json_loads E text = Raise e
  \/ (exists v, json_loads E text = Return v /\ dict_items v = Raise e) ->
  isinstance_Exception e = true ->
  listen_loop E callback (Return (Some text) :: rest) last_config s
  = (Return Stopped, after s [EvRecv; EvPrint (str_exn e)]).
Proof.
  intros Hbad Hex. simpl listen_loop.
  unfold listen_turn, try_except, bind, lift, ret, emit, print. run.
  destruct Hbad as [Hl | (v & Hl & Hv)]; rewrite Hl; run.
  - rewrite Hex. settle.
  - rewrite Hv. run. rewrite Hex. settle.
Qed.

(** X22. A status message without a [text] field ends the loop with the
    KeyError printed, after the callback for its model, if it has one, was
    called. *)
Theorem status_without_text_stops_listening (E : env)
  (callback : json -> MessageType -> outcome unit)
  (last_config : dict json) (text : string) (fields : dict json)
  (rest : list (outcome (option string))) (s : state) :
  json_loads E text = Return (JDict fields) ->
  (forall model, dict_get fields "model" = Some model -> callback model DATA = Return tt) ->
  dict_get fields "command" = Some (JStr "status") ->
  dict_get fields "text" = None ->
  listen_loop E callback (Return (Some text) :: rest) last_config s
  = (Return Stopped, after s ([EvRecv] ++ model_calls fields ++ [EvPrint "'text'"])).
Proof.
  intros Hl Hmodel Hcmd Htext. simpl listen_loop.
  unfold listen_turn, try_except, bind, lift, invoke, ret, emit, print, dict_items,
    dict_getitem, dict_contains, dict_get_or_None, model_calls.
  run. rewrite Hl. run. rewrite Hcmd, Htext.
  change (py_eq (JStr "status") (JStr "status")) with true.
  destruct (dict_get fields "model") as [model|] eqn:Hm; run.
  - rewrite (Hmodel model eq_refl). settle.
  - settle.
Qed.

(** X23. When the callback raises an [Exception] on a model, the loop ends:
    the error is printed, the status branch of that message is not run, and
    later frames are not read. *)
Theorem failing_callback_stops_listening (E : env)
  (callback : json -> MessageType -> outcome unit)
  (last_config : dict json) (text : string) (fields : dict json) (model : json)
  (e : exn) (rest : list (outcome (option string))) (s : state) :
  json_loads E text = Return (JDict fields) ->
  dict_get fields "model" = Some model ->
  callback model DATA = Raise e ->
  isinstance_Exception e = true ->
  listen_loop E callback (Return (Some text) :: rest) last_config s
  = (Return Stopped, after s [EvRecv; EvCallback model DATA; EvPrint (str_exn e)]).
Proof.
  intros Hl Hm Hcb Hex. simpl listen_loop.
  unfold listen_turn, try_except, bind, lift, invoke, ret, emit, print, dict_items,
    dict_getitem, dict_contains, dict_get_or_None.
  run. rewrite Hl. run. rewrite Hm. run. rewrite Hcb. run. rewrite Hex. settle.
Qed.

(** X24. A message with a model and no status calls the callback once, with
    the model and [DATA], and leaves the stored snapshot as it is. *)
Theorem model_message_keeps_snapshot (E : env)
  (callback : json -> MessageType -> outcome unit)
  (last_config : dict json) (text : string) (fields : dict json) (model : json)
  (s : state) :
  json_loads E text = Return (JDict fields) ->
  dict_get fields "model" = Some model ->
  py_eq (dict_get_or_None fields "command") (JStr "status") = false ->
  callback model DATA = Return tt ->
  listen_turn E callback last_config (Return (Some text)) s
  = (Return (Continue last_config), after s [EvRecv; EvCallback model DATA]).
Proof.
  intros Hl Hm Hcmd Hcb.
  unfold listen_turn, try_except, bind, lift, invoke, ret, emit, dict_items,
    dict_getitem, dict_contains.
  run. rewrite Hl. run. rewrite Hm. run. rewrite Hcb. run. rewrite Hcmd. settle.
Qed.

(** X25. Listening to frames that arrive in two batches is listening to the
    first and then, if the loop still waits, to the second from the
    snapshot and state reached; after a break nothing of the second batch
    is read. *)
Theorem listen_loop_app (E : env) (callback : json -> MessageType -> outcome unit)
  (first later : list (outcome (option string))) :
  forall (last_config : dict json) (s : state),
    listen_loop E callback (first ++ later) last_config s
    = match listen_loop E callback first last_config s with
      | (Return (Waiting snapshot), s') => listen_loop E callback later snapshot s'
      | ended => ended
      end.
Proof.
  induction first as [|received first IH]; intros last_config s; [reflexivity|].
  simpl. unfold bind.
  destruct (listen_turn E callback last_config received s) as [[[snapshot|]|e] s1].
  - apply IH.
  - reflexivity.
  - reflexivity.
Qed.

Lemma listen_turn_in_loop (E : env) (callback : json -> MessageType -> outcome unit)
  (last_config : dict json) (received : outcome (option string)) :
  only_events in_loop (listen_turn E callback last_config received).
Proof.
  unfold listen_turn, invoke, print.
  apply only_try_except.
  - apply only_bind; [now apply only_emit|intros _].
    apply only_bind; [apply only_lift|intros [text|]]; [|apply only_ret].
    apply only_bind; [apply only_lift|intros message].
    apply only_bind; [apply only_lift|intros fields].
    apply only_bind.
    + destruct (dict_contains fields "model"); [|apply only_ret].
      apply only_bind; [apply only_lift|intros model].
      apply only_bind; [now apply only_emit|intros _]. apply only_lift.
    + intros _. destruct (py_eq _ _); [|apply only_ret].
      apply only_bind; [apply only_lift|intros changes].
      apply only_bind; [apply only_lift|intros items].
      apply only_bind; [|intros _; apply only_ret].
      apply only_bind; [now apply only_emit|intros _]. apply only_lift.
  - intros e. apply only_bind; [now apply only_emit|intros _]. apply only_ret.
Qed.

Lemma listen_loop_in_loop (E : env) (callback : json -> MessageType -> outcome unit)
  (inbound : list (outcome (option string))) :
  forall last_config, only_events in_loop (listen_loop E callback inbound last_config).
Proof.
  induction inbound as [|received rest IH]; intros last_config; simpl.
  - apply only_ret.
  - apply only_bind; [apply listen_turn_in_loop|].
    intros [snapshot|]; [apply IH|apply only_ret].
Qed.

(** X26. Once connected, the listener registers, runs the loop, and closes
    the connection exactly when it ends, by a break or by an exception; as
    long as it waits for frames the connection stays open. *)
Theorem listener_closes_when_it_ends (E : env)
  (callback : json -> MessageType -> outcome unit)
  (inbound : list (outcome (option string))) (s : state) :
  ws_connect E (url_of (CMD_PORT s)) = Return tt ->
  exists evs,
    forallb in_loop evs = true
    /\ trace (snd (_listen E callback inbound s))
       = trace s
         ++ [EvConnect (url_of (CMD_PORT s)) (Some max_size); EvSend register_frame]
         ++ evs
         ++ match fst (_listen E callback inbound s) with
            | Return (Waiting _) => []
            | _ => [EvClose]
            end.
Proof.
  intros Hc. rewrite (_listen_connected E callback inbound s Hc).
  assert (Hblock : only_events in_loop
            (lift (ws_send E register_frame) ;; listen_loop E callback inbound [])).
  { apply only_bind; [apply only_lift|intros _]. apply listen_loop_in_loop. }
  destruct (Hblock (after s [EvConnect (url_of (CMD_PORT s)) (Some max_size);
                             EvSend register_frame]))
    as (evs & Htr & Hall & _).
  exists evs. split; [exact Hall|].
  unfold leaving_with.
  destruct ((lift (ws_send E register_frame) ;; listen_loop E callback inbound [])
              (after s [EvConnect (url_of (CMD_PORT s)) (Some max_size);
                        EvSend register_frame]))
    as [[[snapshot|]|e] s1]; simpl in Htr.
  - simpl. rewrite Htr, app_nil_r, <- app_assoc. reflexivity.
  - unfold bind, emit, lift, ret. simpl.
    destruct (ws_close E); simpl; rewrite Htr, <- !app_assoc; reflexivity.
  - unfold bind, emit, lift, raise. simpl.
    destruct (ws_close E); simpl; rewrite Htr, <- !app_assoc; reflexivity.
Qed.

(** X27. A listener that cannot connect raises the error to its caller (it
    has no [try] around the connect), and one whose registration cannot be
    sent closes the connection and raises. *)
Theorem listener_start_failure_raises (E : env)
  (callback : json -> MessageType -> outcome unit)
  (inbound : list (outcome (option string))) (s : state) (e : exn) :
  (ws_connect E (url_of (CMD_PORT s)) = Raise e ->
   _listen E callback inbound s
   = (Raise e, after s [EvConnect (url_of (CMD_PORT s)) (Some max_size)]))
  /\ (ws_connect E (url_of (CMD_PORT s)) = Return tt ->
      ws_send E register_frame = Raise e ->
      ws_close E = Return tt ->
      _listen E callback inbound s
      = (Raise e, after s [EvConnect (url_of (CMD_PORT s)) (Some max_size);
                           EvSend register_frame; EvClose])).
Proof.
  split.
  - intros Hc. unfold _listen, bind, read_CMD_PORT, lift, emit. run. rewrite Hc. settle.
  - intros Hc Hs Hclose. rewrite (_listen_connected E callback inbound s Hc).
    unfold leaving_with, bind, lift, emit, raise. rewrite Hs. run. rewrite Hclose. settle.
Qed.

Lemma printed_app (a b : list event) : printed (a ++ b) = printed a ++ printed b.
Proof. unfold printed. apply flat_map_app. Qed.

Lemma scan_states_prints (E : env) (states : state_store) :
  forall (port : option pyport) (s : state),
    keys_parse states ->
    printed (trace (snd (scan_states E states port s)))
    = printed (trace s) ++ map stale_line (dead_keys E states).
Proof.
  induction states as [|[p st] rest IH]; intros port s Hkeys.
  - simpl. now rewrite app_nil_r.
  - inversion Hkeys as [|entry l [n Hn] Hrest]; subst. simpl in Hn.
    assert (Ha : alive_key E p = Z.eqb (connect_ex E n) 0)
      by (unfold alive_key; rewrite Hn; reflexivity).
    unfold dead_keys. cbn [map filter fst]. rewrite Ha.
    simpl scan_states. unfold bind, lift. rewrite Hn. run.
    destruct (Z.eqb (connect_ex E n) 0); run.
    + rewrite IH by assumption. simpl. rewrite printed_app. simpl.
      now rewrite app_nil_r.
    + rewrite IH by assumption. simpl trace. rewrite !printed_app.
      unfold stale_line, dead_keys. simpl. rewrite app_nil_r, <- app_assoc.
      reflexivity.
Qed.

Lemma alive_ports_prints (E : env) (states : state_store) :
  forall s : state,
    printed (trace (snd (alive_ports E states s))) = printed (trace s).
Proof.
  induction states as [|[p st] rest IH]; intros s; [reflexivity|].
  simpl. unfold bind, lift.
  destruct (py_int p) as [n|e]; [|reflexivity]. run.
  specialize (IH (after s [EvProbe n])). unfold after in IH.
  match goal with
  | |- context [alive_ports E rest ?s0] => destruct (alive_ports E rest s0) as [[ports|e] s1]
  end; simpl in *; rewrite IH, printed_app; simpl; now rewrite app_nil_r.
Qed.

(** X28. [find_port] prints one stale-configuration line for each entry of
    the State Store whose port does not answer, in store order, and prints
    nothing else. *)
Theorem find_port_reports_stale_entries (E : env) (s : state) :
  keys_parse (state_file s) ->
  printed (trace (snd (find_port E s)))
  = printed (trace s) ++ map stale_line (dead_keys E (state_file s)).
Proof.
  intros Hkeys.
  destruct (find_port_run E s Hkeys) as (s1 & evs & Hscan & _ & _ & _ & Hfind).
  pose proof (scan_states_prints E (state_file s) None s Hkeys) as Hprints.
  rewrite Hscan in Hprints. simpl in Hprints.
  rewrite Hfind. destruct (scan_result E (state_file s) None); [exact Hprints|].
  unfold bind. pose proof (alive_ports_prints E (state_file s) s1) as Hap.
  destruct (alive_ports E (state_file s) s1) as [[ports|e] s2]; simpl in Hap.
  - destruct (Nat.eqb _ _); [simpl; congruence|].
    destruct (Nat.ltb _ _); simpl; congruence.
  - simpl. congruence.
Qed.

(** ** Runs of the further properties *)

Lemma known_port_send_raises_no_Exception_witness :
  isinstance_Exception Demo.keyboard_interrupt = false.
Proof.
  exact (known_port_send_raises_no_Exception Demo.hooks Demo.interrupted
           (Demo.Json (JInt 5)) COMMAND (Some (PortInt 3939)) false (fresh [])
           (PortInt 3939) Demo.keyboard_interrupt (or_introl eq_refl) eq_refl).
Defined.

Lemma resolution_error_escapes_witness :
  fst (_send Demo.hooks Demo.no_viewer (Demo.Json (JInt 5)) DATA None false
         (fresh Demo.other_folders))
  = Raise (RuntimeError no_port_message)
  /\ sent_frames (trace (snd (_send Demo.hooks Demo.no_viewer (Demo.Json (JInt 5)) DATA
                                None false (fresh Demo.other_folders))))
     = [].
Proof.
  destruct (resolution_error_escapes Demo.hooks Demo.no_viewer (Demo.Json (JInt 5)) DATA
              false (fresh Demo.other_folders)
              (snd (find_and_set_port Demo.no_viewer (fresh Demo.other_folders)))
              (RuntimeError no_port_message) eq_refl eq_refl) as [Hsend _].
  rewrite Hsend. split; reflexivity.
Defined.

Lemma bad_OCP_PORT_raises_witness :
  get_port Demo.bad_override (fresh Demo.two_viewers)
  = (Raise (ValueError "invalid literal for int() with base 10: 'abc'"),
     fresh Demo.two_viewers).
Proof.
  exact (proj1 (proj2 (bad_OCP_PORT_raises Demo.hooks Demo.bad_override
                         (Demo.Json JNull) DATA false (fresh Demo.two_viewers) "abc"
                         (ValueError "invalid literal for int() with base 10: 'abc'")
                         eq_refl eq_refl eq_refl))).
Defined.

Lemma nonpositive_OCP_PORT_is_ignored_witness :
  CMD_PORT (snd (find_and_set_port Demo.negative_override (fresh Demo.other_folders)))
  = PortStr "3940".
Proof.
  rewrite (nonpositive_OCP_PORT_is_ignored Demo.negative_override
             (fresh Demo.other_folders) "-1" (-1)%Z eq_refl eq_refl).
  - reflexivity.
  - lia.
Defined.

Lemma command_without_reply_returns_null_witness :
  _send Demo.hooks Demo.silent_viewer (Demo.Json (JInt 5)) COMMAND (Some (PortInt 3939))
    false (fresh [])
  = (Return JNull,
     after (fresh []) [EvConnect "ws://127.0.0.1:3939" None; EvSend "C:5"; EvRecv;
                       EvPrint "no close frame received or sent"; EvClose]).
Proof.
  exact (command_without_reply_returns_null Demo.hooks Demo.silent_viewer
           (Demo.Json (JInt 5)) (Some (PortInt 3939)) false (fresh []) (PortInt 3939)
           "C:5" Demo.connection_closed (or_introl eq_refl) eq_refl eq_refl eq_refl
           (or_introl eq_refl) eq_refl).
Defined.

Lemma interrupt_while_waiting_for_reply_witness :
  _send Demo.hooks Demo.interrupted (Demo.Json (JInt 5)) COMMAND (Some (PortInt 3939))
    false (fresh [])
  = (Raise Demo.keyboard_interrupt,
     after (fresh []) [EvConnect "ws://127.0.0.1:3939" None; EvSend "C:5"; EvRecv]).
Proof.
  exact (interrupt_while_waiting_for_reply Demo.hooks Demo.interrupted
           (Demo.Json (JInt 5)) (Some (PortInt 3939)) false (fresh []) (PortInt 3939)
           "C:5" Demo.keyboard_interrupt (or_introl eq_refl) eq_refl eq_refl eq_refl
           eq_refl eq_refl).
Defined.

Lemma failed_resolution_caches_nothing_witness :
  CMD_PORT (snd (find_and_set_port Demo.no_viewer (fresh Demo.other_folders)))
  = PortInt 3939
  /\ INIT_DONE (snd (find_and_set_port Demo.no_viewer (fresh Demo.other_folders)))
     = false.
Proof.
  exact (failed_resolution_caches_nothing Demo.no_viewer (fresh Demo.other_folders)
           (snd (find_and_set_port Demo.no_viewer (fresh Demo.other_folders)))
           (RuntimeError no_port_message) eq_refl).
Defined.

Lemma get_port_result_is_cached_witness :
  get_port Demo.override_4000 (snd (get_port Demo.override_4000 (fresh [])))
  = (Return (PortInt 4000), snd (get_port Demo.override_4000 (fresh []))).
Proof.
  exact (proj2 (get_port_result_is_cached Demo.override_4000 (fresh [])
                  (snd (get_port Demo.override_4000 (fresh []))) (PortInt 4000)
                  eq_refl)).
Defined.

Lemma jupyter_failure_keeps_resolved_port_witness :
  get_port Demo.broken_jupyter (fresh [])
  = (Raise (Exception "FileNotFoundError" "No such file"),
     snd (find_and_set_port Demo.broken_jupyter (fresh [])))
  /\ get_port Demo.broken_jupyter
       (snd (find_and_set_port Demo.broken_jupyter (fresh [])))
     = (Return (PortInt 4000), snd (find_and_set_port Demo.broken_jupyter (fresh []))).
Proof.
  destruct (jupyter_failure_keeps_resolved_port Demo.hooks Demo.broken_jupyter
              (Demo.Json JNull) DATA false (fresh [])
              (snd (find_and_set_port Demo.broken_jupyter (fresh [])))
              "kernel-1.json" (Exception "FileNotFoundError" "No such file")
              eq_refl eq_refl eq_refl eq_refl eq_refl) as (Hfirst & _ & Hsecond).
  split; [exact Hfirst|exact Hsecond].
Defined.

Lemma one_frame_per_send_witness :
  sent_frames (trace (snd (_send Demo.hooks Demo.silent_viewer (Demo.Json (JInt 5))
                             COMMAND (Some (PortInt 3939)) false (fresh []))))
  = ["C:5"].
Proof.
  exact (one_frame_per_send Demo.hooks Demo.silent_viewer (Demo.Json (JInt 5)) COMMAND
           (Some (PortInt 3939)) false (fresh []) (PortInt 3939) "5"
           (or_introl eq_refl) eq_refl eq_refl).
Defined.

Lemma frames_of_tagged_kinds_differ_witness : BACKEND = BACKEND.
Proof.
  exact (frames_of_tagged_kinds_differ Demo.hooks (Demo.Json (JInt 5))
           (Demo.Member (JInt 5)) BACKEND BACKEND "B:5" eq_refl eq_refl eq_refl eq_refl).
Defined.

Lemma delta_is_ordered_selection_witness :
  status_delta Demo.previous_snapshot Demo.new_snapshot
  = [("b", JInt 3); ("c", JInt 4)].
Proof.
  rewrite (proj1 (delta_is_ordered_selection Demo.previous_snapshot Demo.new_snapshot
                    new_snapshot_wf)).
  reflexivity.
Defined.

Lemma new_snapshot_json_wf : json_wf (JDict Demo.new_snapshot).
Proof.
  constructor; [exact new_snapshot_wf|]. repeat constructor.
Defined.

Lemma repeated_snapshot_gives_empty_delta_witness :
  listen_turn (Demo.receiving (JDict Demo.status_fields)) Demo.quiet Demo.new_snapshot
    (Return (Some (Demo.render (JDict Demo.status_fields)))) (fresh [])
  = (Return (Continue Demo.new_snapshot),
     after (fresh []) [EvRecv; EvCallback (JDict []) UPDATES]).
Proof.
  exact (proj2 (repeated_snapshot_gives_empty_delta
                  (Demo.receiving (JDict Demo.status_fields)) Demo.quiet
                  (Demo.render (JDict Demo.status_fields)) Demo.status_fields
                  Demo.new_snapshot (fresh [])
                  eq_refl new_snapshot_json_wf eq_refl eq_refl eq_refl eq_refl)).
Defined.

Lemma malformed_frame_stops_listening_witness :
  listen_loop (Demo.receiving (JList [])) Demo.quiet
    [Return (Some "[]"); Return (Some "[]")] Demo.previous_snapshot (fresh [])
  = (Return Stopped,
     after (fresh []) [EvRecv; EvPrint "object has no attribute 'keys'"]).
Proof.
  refine (malformed_frame_stops_listening (Demo.receiving (JList [])) Demo.quiet
            Demo.previous_snapshot "[]" (AttributeError "object has no attribute 'keys'")
            [Return (Some "[]")] (fresh []) _ eq_refl).
  right. exists (JList []). split; reflexivity.
Defined.

Lemma status_without_text_stops_listening_witness :
  listen_loop (Demo.receiving (JDict Demo.status_without_text)) Demo.quiet
    [Return (Some (Demo.render (JDict Demo.status_without_text)))]
    Demo.previous_snapshot (fresh [])
  = (Return Stopped, after (fresh []) [EvRecv; EvPrint "'text'"]).
Proof.
  exact (status_without_text_stops_listening
           (Demo.receiving (JDict Demo.status_without_text)) Demo.quiet
           Demo.previous_snapshot (Demo.render (JDict Demo.status_without_text))
           Demo.status_without_text [] (fresh [])
           eq_refl (fun _ _ => eq_refl) eq_refl eq_refl).
Defined.

Lemma failing_callback_stops_listening_witness :
  listen_loop (Demo.receiving (JDict Demo.model_status_fields)) Demo.failing
    [Return (Some (Demo.render (JDict Demo.model_status_fields))); Return None]
    Demo.previous_snapshot (fresh [])
  = (Return Stopped,
     after (fresh []) [EvRecv; EvCallback (JDict [("x", JInt 1)]) DATA;
                       EvPrint "bad model"]).
Proof.
  exact (failing_callback_stops_listening
           (Demo.receiving (JDict Demo.model_status_fields)) Demo.failing
           Demo.previous_snapshot (Demo.render (JDict Demo.model_status_fields))
           Demo.model_status_fields (JDict [("x", JInt 1)])
           (Exception "ValueError" "bad model") [Return None] (fresh [])
           eq_refl eq_refl eq_refl eq_refl).
Defined.

Lemma model_message_keeps_snapshot_witness :
  listen_turn (Demo.receiving (JDict Demo.model_fields)) Demo.quiet
    Demo.previous_snapshot (Return (Some (Demo.render (JDict Demo.model_fields))))
    (fresh [])
  = (Return (Continue Demo.previous_snapshot),
     after (fresh []) [EvRecv; EvCallback (JDict [("x", JInt 1)]) DATA]).
Proof.
  exact (model_message_keeps_snapshot (Demo.receiving (JDict Demo.model_fields))
           Demo.quiet Demo.previous_snapshot (Demo.render (JDict Demo.model_fields))
           Demo.model_fields (JDict [("x", JInt 1)]) (fresh [])
           eq_refl eq_refl eq_refl eq_refl).
Defined.

Lemma listener_closes_when_it_ends_witness :
  exists evs,
    forallb in_loop evs = true
    /\ trace (snd (_listen (Demo.receiving (JList [])) Demo.quiet [Return (Some "[]")]
                     (fresh [])))
       = trace (fresh [])
         ++ [EvConnect (url_of (PortInt 3939)) (Some max_size); EvSend register_frame]
         ++ evs
         ++ match fst (_listen (Demo.receiving (JList [])) Demo.quiet
                         [Return (Some "[]")] (fresh [])) with
            | Return (Waiting _) => []
            | _ => [EvClose]
            end.
Proof.
  exact (listener_closes_when_it_ends (Demo.receiving (JList [])) Demo.quiet
           [Return (Some "[]")] (fresh []) eq_refl).
Defined.

Lemma listener_start_failure_raises_witness :
  _listen Demo.no_viewer Demo.quiet [] (fresh [])
  = (Raise Demo.refused,
     after (fresh []) [EvConnect "ws://127.0.0.1:3939" (Some max_size)]).
Proof.
  exact (proj1 (listener_start_failure_raises Demo.no_viewer Demo.quiet [] (fresh [])
                  Demo.refused) eq_refl).
Defined.

Lemma find_port_reports_stale_entries_witness :
  printed (trace (snd (find_port Demo.only_3940 (fresh Demo.other_folders))))
  = ["Found stale configuration for port 3939, deleting it."].
Proof.
  exact (find_port_reports_stale_entries Demo.only_3940 (fresh Demo.other_folders)
           other_folders_parse).
Defined.
